(** * Actor tools of the Unreal MCP server: a shallow embedding

    The module [Python/tools/actor_tools.py] registers six tool functions.
    Each one looks the engine connection up, sends one command through it and
    reshapes the reply, inside a [try ... except Exception] that turns every
    failure into a default value.

    The embedding follows the Python text statement by statement:
    - Python values (JSON-like) are the inductive [PyVal];
    - a Python expression that may raise is an [Outcome];
    - a function body is a [Run]: the list of [send_command] invocations it
      performed, together with its outcome;
    - the two collaborators that live outside the module, the connection
      lookup [get_unreal_connection] and the string case of the builtin
      [float], are parameters of the development.

    Logging is not modelled; an expression evaluated only to be logged is
    kept when its evaluation can raise. *)

From Stdlib Require Import ZArith List String Ascii Bool Lia.
From Stdlib Require Import Floats.SpecFloat.
Import ListNotations.

Local Open Scope string_scope.
Local Open Scope Z_scope.
Set Warnings "-register-all".

(** ** Python values *)

(** A binary64 float is a [spec_float] of precision 53 and maximal
    exponent 1024. *)
Definition prec : Z := 53.
Definition emax : Z := 1024.

Inductive PyVal : Type :=
| PyNone
| PyBool (b : bool)
| PyInt (z : Z)
| PyFloat (f : spec_float)
| PyStr (s : string)
| PyList (l : list PyVal)
| PyDict (d : list (string * PyVal)).

(** A dict with string keys, in insertion order. *)
Definition dict := list (string * PyVal).

(** ** Exceptions and outcomes *)

(** [PyExc] stands for an instance of [Exception]: its class and the text
    [str(e)] gives. *)
Inductive ExcClass : Type :=
| TypeError
| ValueError
| AttributeError
| KeyError
| OverflowError
| OtherException (class_name : string).

Record PyExc : Type := mkExc { exc_class : ExcClass; exc_str : string }.

Inductive Outcome (A : Type) : Type :=
| Ret (a : A)
| Raise (e : PyExc).
Arguments Ret {A} a.
Arguments Raise {A} e.

(** One invocation of [send_command]: the command name and its params. *)
Definition Call : Type := string * PyVal.

(** A run of a piece of code: the invocations made, then how it ended. *)
Definition Run (A : Type) : Type := list Call * Outcome A.

Definition calls {A} (r : Run A) : list Call := fst r.
Definition outcome {A} (r : Run A) : Outcome A := snd r.

Definition ret {A} (a : A) : Run A := ([], Ret a).
Definition raise {A} (e : PyExc) : Run A := ([], Raise e).

Definition bind {A B} (m : Run A) (k : A -> Run B) : Run B :=
  match m with
  | (t, Ret a) => let (t', o) := k a in ((t ++ t')%list, o)
  | (t, Raise e) => (t, Raise e)
  end.

(** An expression without effect on the connection. *)
Definition pure {A} (o : Outcome A) : Run A := ([], o).

(** [try: body except Exception as e: handler e]. *)
Definition try_except {A} (body : Run A) (handler : PyExc -> Run A) : Run A :=
  match body with
  | (t, Ret a) => (t, Ret a)
  | (t, Raise e) => let (t', o) := handler e in ((t ++ t')%list, o)
  end.

Declare Scope run_scope.
Delimit Scope run_scope with run.
Notation "x <- m ;; k" := (bind m (fun x => k))
  (at level 61, m at next level, right associativity) : run_scope.
Notation "m ;;; k" := (bind m (fun _ => k))
  (at level 61, right associativity) : run_scope.
Local Open Scope run_scope.

(** ** Builtins *)

Definition type_name (v : PyVal) : string :=
  match v with
  | PyNone => "NoneType"
  | PyBool _ => "bool"
  | PyInt _ => "int"
  | PyFloat _ => "float"
  | PyStr _ => "str"
  | PyList _ => "list"
  | PyDict _ => "dict"
  end.

(** [repr] of a string that holds no quote, backslash or control character. *)
Definition py_quote (s : string) : string := "'" ++ s ++ "'".

Definition float_is_zero (f : spec_float) : bool :=
  match f with
  | S754_zero _ => true
  | _ => false
  end.

(** Truth value of an object, as [not x], [x or y] and [if x] test it. *)
Definition truthy (v : PyVal) : bool :=
  match v with
  | PyNone => false
  | PyBool b => b
  | PyInt z => negb (z =? 0)
  | PyFloat f => negb (float_is_zero f)
  | PyStr s => negb (String.eqb s "")
  | PyList l => match l with [] => false | _ => true end
  | PyDict d => match d with [] => false | _ => true end
  end.

(** [x or y]. *)
Definition py_or (x y : PyVal) : PyVal := if truthy x then x else y.

Fixpoint dict_lookup (k : string) (d : dict) : option PyVal :=
  match d with
  | [] => None
  | (k', v) :: d' => if String.eqb k k' then Some v else dict_lookup k d'
  end.

(** [d[k] = v]: the value of an existing key is replaced where it stands, a
    new key is appended. *)
Fixpoint dict_set (k : string) (v : PyVal) (d : dict) : dict :=
  match d with
  | [] => [(k, v)]
  | (k', v') :: d' =>
      if String.eqb k k' then (k', v) :: d' else (k', v') :: dict_set k v d'
  end.

Fixpoint str_contains (needle hay : string) : bool :=
  if String.prefix needle hay then true
  else match hay with
       | EmptyString => false
       | String _ hay' => str_contains needle hay'
       end.

Definition is_str (k : string) (v : PyVal) : bool :=
  match v with
  | PyStr s => String.eqb s k
  | _ => false
  end.

(** [k in c] for a string [k]. *)
Definition py_contains (k : string) (c : PyVal) : Outcome bool :=
  match c with
  | PyDict d => Ret (match dict_lookup k d with Some _ => true | None => false end)
  | PyList l => Ret (existsb (is_str k) l)
  | PyStr s => Ret (str_contains k s)
  | _ => Raise (mkExc TypeError
                  ("argument of type " ++ py_quote (type_name c) ++ " is not iterable"))
  end.

(** [c[k]] for a string [k]. *)
Definition py_getitem (c : PyVal) (k : string) : Outcome PyVal :=
  match c with
  | PyDict d =>
      match dict_lookup k d with
      | Some v => Ret v
      | None => Raise (mkExc KeyError (py_quote k))
      end
  | PyList _ => Raise (mkExc TypeError "list indices must be integers or slices, not str")
  | PyStr _ => Raise (mkExc TypeError "string indices must be integers, not 'str'")
  | _ => Raise (mkExc TypeError (py_quote (type_name c) ++ " object is not subscriptable"))
  end.

Definition no_attribute (v : PyVal) (attr : string) : PyExc :=
  mkExc AttributeError
    (py_quote (type_name v) ++ " object has no attribute " ++ py_quote attr).

(** [c.get(k, default)]. *)
Definition py_get (c : PyVal) (k : string) (default : PyVal) : Outcome PyVal :=
  match c with
  | PyDict d =>
      Ret (match dict_lookup k d with Some v => v | None => default end)
  | _ => Raise (no_attribute c "get")
  end.

(** [len(c)]. *)
Definition py_len (c : PyVal) : Outcome Z :=
  match c with
  | PyList l => Ret (Z.of_nat (List.length l))
  | PyDict d => Ret (Z.of_nat (List.length d))
  | PyStr s => Ret (Z.of_nat (String.length s))
  | _ => Raise (mkExc TypeError
                  ("object of type " ++ py_quote (type_name c) ++ " has no len()"))
  end.

Definition ascii_upper (c : ascii) : ascii :=
  let n := N_of_ascii c in
  if ((97 <=? n) && (n <=? 122))%N then ascii_of_N (n - 32) else c.

(** [s.upper()] for a string of ASCII characters: the letters a to z are
    the only ones it changes. Text outside ASCII is outside this model. *)
Fixpoint str_upper (s : string) : string :=
  match s with
  | EmptyString => EmptyString
  | String c s' => String (ascii_upper c) (str_upper s')
  end.

(** [v.upper()]. *)
Definition py_upper (v : PyVal) : Outcome PyVal :=
  match v with
  | PyStr s => Ret (PyStr (str_upper s))
  | _ => Raise (no_attribute v "upper")
  end.

Definition float_of_Z (z : Z) : spec_float := binary_normalize prec emax z 0 false.

Definition float_is_finite (f : spec_float) : bool :=
  match f with
  | S754_zero _ | S754_finite _ _ _ => true
  | _ => false
  end.

(** The float literals of the module. *)
Definition f0 : spec_float := S754_zero false.
Definition f1 : spec_float := Eval cbv in float_of_Z 1.

(** The literals [[0.0, 0.0, 0.0]] (location, rotation) and
    [[1.0, 1.0, 1.0]] (scale). *)
Definition default_zeros : PyVal := PyList [PyFloat f0; PyFloat f0; PyFloat f0].
Definition default_ones : PyVal := PyList [PyFloat f1; PyFloat f1; PyFloat f1].

(** The connection object: its [send_command] method answers a command name
    and a params mapping with a reply, or raises. *)
Record UnrealConnection : Type :=
  { send_command : string -> PyVal -> Outcome PyVal }.

(** [unity.send_command(command, params)], where [unity] is what the lookup
    returned: a connection, or [None]. *)
Definition call_send_command (unity : option UnrealConnection)
    (command : string) (params : PyVal) : Run PyVal :=
  match unity with
  | Some conn => ([(command, params)], send_command conn command params)
  | None => raise (no_attribute PyNone "send_command")
  end.

(** The mapping [{"success": False, "message": msg}]. *)
Definition failure (msg : string) : PyVal :=
  PyDict [("success", PyBool false); ("message", PyStr msg)].

Definition is_none (v : PyVal) : bool :=
  match v with
  | PyNone => true
  | _ => false
  end.

(** How the validation loop of [create_actor] ends: by its [return], or by
    running to completion with the params it rewrote. *)
Inductive LoopExit : Type :=
| Returned (v : PyVal)
| Completed (params : dict).

(** ** The tool functions *)

Section ActorTools.

(** [float(s)] for a string [s]: the parsed value, or [None] where the
    builtin raises [ValueError]. *)
Variable float_of_str : string -> option spec_float.

(** [get_unreal_connection()] of the server module. *)
Variable get_unreal_connection : Outcome (option UnrealConnection).

(** [float(v)]. *)
Definition py_float (v : PyVal) : Outcome spec_float :=
  match v with
  | PyFloat f => Ret f
  | PyBool b => Ret (if b then f1 else f0)
  | PyInt z =>
      let f := float_of_Z z in
      if float_is_finite f then Ret f
      else Raise (mkExc OverflowError "int too large to convert to float")
  | PyStr s =>
      match float_of_str s with
      | Some f => Ret f
      | None => Raise (mkExc ValueError
                         ("could not convert string to float: " ++ py_quote s))
      end
  | _ => Raise (mkExc TypeError
                  ("float() argument must be a string or a real number, not "
                     ++ py_quote (type_name v)))
  end.

(** [[float(val) for val in l]]. *)
Fixpoint float_all (l : list PyVal) : Outcome (list PyVal) :=
  match l with
  | [] => Ret []
  | val :: l' =>
      match py_float val with
      | Raise e => Raise e
      | Ret f =>
          match float_all l' with
          | Raise e => Raise e
          | Ret fs => Ret (PyFloat f :: fs)
          end
      end
  end.

Definition invalid_format (param_name : string) : string :=
  "Invalid " ++ param_name ++ " format. Must be a list of 3 float values.".

(** The loop [for param_name in ["location", "rotation", "scale"]] of
    [create_actor], over the names still to visit. *)
Fixpoint validate (names : list string) (params : dict) : Outcome LoopExit :=
  match names with
  | [] => Ret (Completed params)
  | param_name :: names' =>
      match py_getitem (PyDict params) param_name with
      | Raise e => Raise e
      | Ret param_value =>
          (* [not isinstance(param_value, list) or len(param_value) != 3] *)
          match param_value with
          | PyList l =>
              if negb (Z.of_nat (List.length l) =? 3)
              then Ret (Returned (failure (invalid_format param_name)))
              else match float_all l with
                   | Raise e => Raise e
                   | Ret fs => validate names' (dict_set param_name (PyList fs) params)
                   end
          | _ => Ret (Returned (failure (invalid_format param_name)))
          end
      end
  end.

Definition get_actors_in_level : Run PyVal :=
  try_except
    (unity <- pure get_unreal_connection ;;
     response <- call_send_command unity "get_actors_in_level" (PyDict []) ;;
     if negb (truthy response) then ret (PyList [])
     else
       has_result <- pure (py_contains "result" response) ;;
       nested <- (if has_result : bool
                  then result <- pure (py_getitem response "result") ;;
                       pure (py_contains "content" result)
                  else ret false) ;;
       if nested : bool then
         result <- pure (py_getitem response "result") ;;
         actors <- pure (py_getitem result "content") ;;
         pure (py_len actors) ;;;
         ret actors
       else
         direct <- pure (py_contains "content" response) ;;
         if direct : bool then
           actors <- pure (py_getitem response "content") ;;
           pure (py_len actors) ;;;
           ret actors
         else ret (PyList []))
    (fun e => ret (PyList [])).

Definition find_actors_by_name (pattern : PyVal) : Run PyVal :=
  try_except
    (unity <- pure get_unreal_connection ;;
     response <- call_send_command unity "find_actors_by_name"
                   (PyDict [("pattern", pattern)]) ;;
     if negb (truthy response) then ret (PyList [])
     else pure (py_get response "actors" (PyList [])))
    (fun e => ret (PyList [])).

Definition create_actor (name type location rotation scale : PyVal) : Run PyVal :=
  try_except
    (unity <- pure get_unreal_connection ;;
     type_upper <- pure (py_upper type) ;;
     let params :=
       [("name", name);
        ("type", type_upper);
        ("location", py_or location default_zeros);
        ("rotation", py_or rotation default_zeros);
        ("scale", py_or scale default_ones)] in
     exit <- pure (validate ["location"; "rotation"; "scale"] params) ;;
     match exit with
     | Returned v => ret v
     | Completed params =>
         response <- call_send_command unity "create_actor" (PyDict params) ;;
         if negb (truthy response)
         then ret (failure "No response from Unreal Engine")
         else ret response
     end)
    (fun e => ret (failure ("Error creating actor: " ++ exc_str e))).

Definition delete_actor (name : PyVal) : Run PyVal :=
  try_except
    (unity <- pure get_unreal_connection ;;
     response <- call_send_command unity "delete_actor" (PyDict [("name", name)]) ;;
     ret (py_or response (PyDict [])))
    (fun e => ret (PyDict [])).

(** The params mapping [set_actor_transform] builds. *)
Definition transform_params (name location rotation scale : PyVal) : dict :=
  let params := [("name", name)] in
  let params := if negb (is_none location)
                then dict_set "location" location params else params in
  let params := if negb (is_none rotation)
                then dict_set "rotation" rotation params else params in
  let params := if negb (is_none scale)
                then dict_set "scale" scale params else params in
  params.

Definition set_actor_transform (name location rotation scale : PyVal) : Run PyVal :=
  try_except
    (unity <- pure get_unreal_connection ;;
     let params := transform_params name location rotation scale in
     response <- call_send_command unity "set_actor_transform" (PyDict params) ;;
     ret (py_or response (PyDict [])))
    (fun e => ret (PyDict [])).

Definition get_actor_properties (name : PyVal) : Run PyVal :=
  try_except
    (unity <- pure get_unreal_connection ;;
     response <- call_send_command unity "get_actor_properties"
                   (PyDict [("name", name)]) ;;
     ret (py_or response (PyDict [])))
    (fun e => ret (PyDict [])).

End ActorTools.

(** ** Vocabulary of the statements *)

(** A list of exactly three floats. *)
Definition is_float_triple (v : PyVal) : bool :=
  match v with
  | PyList [PyFloat _; PyFloat _; PyFloat _] => true
  | _ => false
  end.

Definition geometry_names : list string := ["location"; "rotation"; "scale"].

(** Every geometry parameter present in a params mapping is a float triple. *)
Definition geometry_ok (params : PyVal) : bool :=
  match params with
  | PyDict d =>
      forallb (fun k => match dict_lookup k d with
                        | Some v => is_float_triple v
                        | None => true
                        end) geometry_names
  | _ => false
  end.

(** A value that is empty or absent: [None], an empty container, and the
    other objects Python counts as false. *)
Definition empty_or_absent (v : PyVal) : bool := negb (truthy v).

(** A supplied value that has a length, and this length is not 3. *)
Definition length_differs_from_3 (v : PyVal) : Prop :=
  is_none v = false /\ exists n, py_len v = Ret n /\ n <> 3.

(** The keys under which a reply may carry its items. *)
Definition nested_content (r : PyVal) : option PyVal :=
  match r with
  | PyDict d =>
      match dict_lookup "result" d with
      | Some (PyDict d') => dict_lookup "content" d'
      | _ => None
      end
  | _ => None
  end.

Definition direct_content (r : PyVal) : option PyVal :=
  match r with
  | PyDict d => dict_lookup "content" d
  | _ => None
  end.

(** The [list_content] rule as the specification words it: nested content
    first, then direct content, else nothing. *)
Definition list_content_spec (r : PyVal) : PyVal :=
  if empty_or_absent r then PyList []
  else match nested_content r with
       | Some c => c
       | None => match direct_content r with
                 | Some c => c
                 | None => PyList []
                 end
       end.

(** The [list_field] rule as the specification words it. *)
Definition list_field_spec (field_name : string) (r : PyVal) : PyVal :=
  if empty_or_absent r then PyList []
  else match r with
       | PyDict d => match dict_lookup field_name d with
                     | Some v => v
                     | None => PyList []
                     end
       | _ => PyList []
       end.

(** The [passthrough_or_default] rule as the specification words it. *)
Definition passthrough_or_default_spec (default r : PyVal) : PyVal :=
  if empty_or_absent r then default else r.

Definition has_len (v : PyVal) : bool :=
  match v with
  | PyList _ | PyStr _ | PyDict _ => true
  | _ => false
  end.

(** A reply whose ["result"] entry, when there is one, is a mapping, and
    whose selected content has a length. *)
Definition content_shaped (r : PyVal) : bool :=
  match r with
  | PyDict d =>
      match dict_lookup "result" d with
      | None | Some (PyDict _) => has_len (list_content_spec r)
      | Some _ => false
      end
  | _ => true
  end.

(** What the validation loop of [create_actor] does with one geometry
    value: it rejects a value that is not a list of three elements, it
    fails when an element cannot be made a float, and otherwise it stores
    the three floats. *)
Inductive Checked : Type :=
| Rejected
| CoercionError (e : PyExc)
| Accepted (triple : PyVal).

Definition check (float_of_str : string -> option spec_float) (v : PyVal) : Checked :=
  match v with
  | PyList [a; b; c] =>
      match py_float float_of_str a with
      | Raise e => CoercionError e
      | Ret x =>
          match py_float float_of_str b with
          | Raise e => CoercionError e
          | Ret y =>
              match py_float float_of_str c with
              | Raise e => CoercionError e
              | Ret z => Accepted (PyList [PyFloat x; PyFloat y; PyFloat z])
              end
          end
      end
  | _ => Rejected
  end.

(** A list of exactly three elements, one of which [float] refuses. *)
Definition has_uncoercible_element (float_of_str : string -> option spec_float)
    (v : PyVal) : Prop :=
  exists a b c x e,
    v = PyList [a; b; c] /\ In x [a; b; c] /\ py_float float_of_str x = Raise e.

(** The message of the generic handler of [create_actor]. *)
Definition error_creating_actor (e : PyExc) : string :=
  "Error creating actor: " ++ exc_str e.

(** The params [create_actor] sends once the three triples are accepted. *)
Definition create_params (name type_upper location rotation scale : PyVal) : PyVal :=
  PyDict [("name", name); ("type", type_upper); ("location", location);
          ("rotation", rotation); ("scale", scale)].

(** What [create_actor] makes of the reply to its command. *)
Definition create_reply (reply : Outcome PyVal) : Outcome PyVal :=
  match reply with
  | Ret r => Ret (if truthy r then r else failure "No response from Unreal Engine")
  | Raise e => Ret (failure (error_creating_actor e))
  end.

(** A string all of whose characters are ASCII (code below 128). *)
Fixpoint is_ascii (s : string) : bool :=
  match s with
  | EmptyString => true
  | String c s' => (N_of_ascii c <? 128)%N && is_ascii s'
  end.

(** ** Connections and a parser to run examples with *)

(** A connection that answers every command with [r]. *)
Definition fixed_reply (r : PyVal) : UnrealConnection :=
  {| send_command := fun _ _ => Ret r |}.

(** A connection that answers every command but ["delete_actor"], on which
    its [send_command] raises. *)
Definition refuses_delete : UnrealConnection :=
  {| send_command := fun command _ =>
       if String.eqb command "delete_actor"
       then Raise (mkExc (OtherException "TimeoutError") "timed out")
       else Ret (PyDict [("status", PyStr "success")]) |}.

(** A connection whose [send_command] always raises. *)
Definition broken_connection : UnrealConnection :=
  {| send_command := fun _ _ =>
       Raise (mkExc (OtherException "ConnectionError") "connection closed") |}.

Fixpoint digits_value (s : string) (acc : Z) : option Z :=
  match s with
  | EmptyString => Some acc
  | String c s' =>
      let n := Z.of_N (N_of_ascii c) in
      if (48 <=? n) && (n <=? 57) then digits_value s' (10 * acc + (n - 48))
      else None
  end.

(** A parser for the examples: it reads a plain run of decimal digits and
    refuses every other string. *)
Definition float_of_digits (s : string) : option spec_float :=
  match s with
  | EmptyString => None
  | _ => option_map float_of_Z (digits_value s 0)
  end.

(** ** Proof support *)

Ltac run_unfold :=
  unfold get_actors_in_level, find_actors_by_name, create_actor, delete_actor,
    set_actor_transform, get_actor_properties, call_send_command,
    try_except, bind, pure, ret, raise, calls, outcome in *.

Ltac run := run_unfold; cbn in *.

Lemma truthy_failure (msg : string) : truthy (failure msg) = true.
Proof. reflexivity. Qed.

Lemma py_or_truthy (x y : PyVal) : truthy x = true -> py_or x y = x.
Proof. unfold py_or. now intros ->. Qed.

Lemma py_or_falsy (x y : PyVal) : truthy x = false -> py_or x y = y.
Proof. unfold py_or. now intros ->. Qed.

(** ** Creation with nothing but a name and a type *)

(** C4. Creating ["Box1"] of type ["cube"] with no location, rotation or
    scale forwards exactly the params [name: "Box1"], [type: "CUBE"],
    [location: [0.0, 0.0, 0.0]], [rotation: [0.0, 0.0, 0.0]],
    [scale: [1.0, 1.0, 1.0]] to [send_command], once, under the command name
    ["create_actor"], whatever connection the lookup returned. *)
Theorem create_actor_box1_forwards_defaults :
  forall (float_of_str : string -> option spec_float) (conn : UnrealConnection),
    calls (create_actor float_of_str (Ret (Some conn))
             (PyStr "Box1") (PyStr "cube") PyNone PyNone PyNone)
    = [("create_actor",
        PyDict
          [("name", PyStr "Box1");
           ("type", PyStr "CUBE");
           ("location", PyList [PyFloat (float_of_Z 0); PyFloat (float_of_Z 0);
                                PyFloat (float_of_Z 0)]);
           ("rotation", PyList [PyFloat (float_of_Z 0); PyFloat (float_of_Z 0);
                                PyFloat (float_of_Z 0)]);
           ("scale", PyList [PyFloat (float_of_Z 1); PyFloat (float_of_Z 1);
                             PyFloat (float_of_Z 1)])])].
Proof.
  intros float_of_str conn. run.
  destruct (send_command conn _ _) as [r | e]; [destruct (truthy r) |]; reflexivity.
Qed.

(** ** Transform update: only what the caller supplied *)

Lemma set_actor_transform_calls (conn : UnrealConnection)
    (name location rotation scale : PyVal) :
  calls (set_actor_transform (Ret (Some conn)) name location rotation scale)
  = [("set_actor_transform",
      PyDict (transform_params name location rotation scale))].
Proof. run_unfold. destruct (send_command conn _ _); reflexivity. Qed.

(** C5. [set_actor_transform] sends one command whose params hold [name]
    followed by exactly those of [location], [rotation], [scale] the caller
    supplied (the ones that are not [None]), each with the value supplied,
    unchanged. In particular, with ["Box1"] and only a location of three
    elements the params are [name] and [location] and no other key. *)
Theorem set_actor_transform_forwards_supplied :
  forall (conn : UnrealConnection) (name location rotation scale : PyVal),
    calls (set_actor_transform (Ret (Some conn)) name location rotation scale)
    = [("set_actor_transform",
        PyDict (("name", name)
                  :: filter (fun kv => negb (is_none (snd kv)))
                       [("location", location); ("rotation", rotation);
                        ("scale", scale)]))]
    /\ forall x y z : PyVal,
        calls (set_actor_transform (Ret (Some conn)) (PyStr "Box1")
                 (PyList [x; y; z]) PyNone PyNone)
        = [("set_actor_transform",
            PyDict [("name", PyStr "Box1"); ("location", PyList [x; y; z])])].
Proof.
  intros conn name location rotation scale. split.
  - rewrite set_actor_transform_calls. unfold transform_params. cbn [filter snd].
    destruct (is_none location), (is_none rotation), (is_none scale); reflexivity.
  - intros x y z. now rewrite set_actor_transform_calls.
Qed.

(** ** Replies relayed as they are *)

Lemma passthrough_run (conn : UnrealConnection) (command : string)
    (params r : PyVal) :
  send_command conn command params = Ret r ->
  try_except
    (unity <- pure (Ret (Some conn)) ;;
     response <- call_send_command unity command params ;;
     ret (py_or response (PyDict [])))
    (fun _ => ret (PyDict []))
  = ([(command, params)], Ret (passthrough_or_default_spec (PyDict []) r)).
Proof.
  intros Hr. run. rewrite Hr.
  unfold passthrough_or_default_spec, empty_or_absent, py_or.
  now destruct (truthy r).
Qed.

(** C7. For [delete_actor], [set_actor_transform] and
    [get_actor_properties]: when [send_command] answers [r], the operation
    returns the empty mapping if [r] is empty or absent and [r] itself
    otherwise. A reply that reports a failure of the engine is not empty, so
    it is returned unchanged. *)
Theorem passthrough_operations_relay_reply :
  forall (conn : UnrealConnection) (name location rotation scale r : PyVal),
    (send_command conn "delete_actor" (PyDict [("name", name)]) = Ret r ->
     outcome (delete_actor (Ret (Some conn)) name)
     = Ret (if empty_or_absent r then PyDict [] else r))
    /\ (forall params,
          calls (set_actor_transform (Ret (Some conn)) name location rotation scale)
          = [("set_actor_transform", params)] ->
          send_command conn "set_actor_transform" params = Ret r ->
          outcome (set_actor_transform (Ret (Some conn)) name location rotation scale)
          = Ret (if empty_or_absent r then PyDict [] else r))
    /\ (send_command conn "get_actor_properties" (PyDict [("name", name)]) = Ret r ->
        outcome (get_actor_properties (Ret (Some conn)) name)
        = Ret (if empty_or_absent r then PyDict [] else r))
    /\ empty_or_absent PyNone = true
    /\ empty_or_absent (PyDict []) = true
    /\ forall msg : string, empty_or_absent (failure msg) = false.
Proof.
  intros conn name location rotation scale r.
  repeat split.
  - intros Hr. unfold delete_actor. now rewrite (passthrough_run _ _ _ _ Hr).
  - intros params Hcalls Hr.
    assert (Hp : params = PyDict (transform_params name location rotation scale)).
    { rewrite set_actor_transform_calls in Hcalls. now inversion Hcalls. }
    subst params. unfold set_actor_transform.
    now rewrite (passthrough_run _ _ _ _ Hr).
  - intros Hr. unfold get_actor_properties. now rewrite (passthrough_run _ _ _ _ Hr).
Qed.

(** The three operations run against a connection that answers with a
    failure report of the engine: each relays the report. *)
Lemma passthrough_operations_relay_reply_witness :
  let r := PyDict [("status", PyStr "error"); ("error", PyStr "Actor not found")] in
  outcome (delete_actor (Ret (Some (fixed_reply r))) (PyStr "Box1")) = Ret r
  /\ outcome (set_actor_transform (Ret (Some (fixed_reply r))) (PyStr "Box1")
                (PyList [PyInt 1; PyInt 2; PyInt 3]) PyNone PyNone) = Ret r
  /\ outcome (get_actor_properties (Ret (Some (fixed_reply r))) (PyStr "Box1")) = Ret r.
Proof.
  intros r.
  destruct (passthrough_operations_relay_reply (fixed_reply r) (PyStr "Box1")
              (PyList [PyInt 1; PyInt 2; PyInt 3]) PyNone PyNone r)
    as (Hd & Hs & Hg & _).
  split; [| split].
  - apply Hd. reflexivity.
  - apply (Hs (PyDict [("name", PyStr "Box1");
                       ("location", PyList [PyInt 1; PyInt 2; PyInt 3])]));
      reflexivity.
  - apply Hg. reflexivity.
Defined.

(** ** Finding actors by name *)

(** C8. When [send_command] answers [r], [find_actors_by_name] returns the
    empty list if [r] is empty or absent, else the value under the key
    ["actors"] if [r] has that key, else the empty list. A reply
    [{"actors": xs}] yields [xs], and [{}] yields the empty list. *)
Theorem find_actors_by_name_list_field :
  forall (conn : UnrealConnection) (pattern r : PyVal),
    send_command conn "find_actors_by_name" (PyDict [("pattern", pattern)]) = Ret r ->
    outcome (find_actors_by_name (Ret (Some conn)) pattern)
    = Ret (list_field_spec "actors" r)
    /\ (forall xs, r = PyDict [("actors", xs)] ->
        outcome (find_actors_by_name (Ret (Some conn)) pattern) = Ret xs)
    /\ (r = PyDict [] ->
        outcome (find_actors_by_name (Ret (Some conn)) pattern) = Ret (PyList [])).
Proof.
  intros conn pattern r Hr.
  assert (H : outcome (find_actors_by_name (Ret (Some conn)) pattern)
              = Ret (list_field_spec "actors" r)).
  { run. rewrite Hr. unfold list_field_spec, empty_or_absent.
    destruct (truthy r) eqn:Ht; cbn; [| reflexivity].
    destruct r; cbn; try reflexivity. }
  split; [exact H |]. split.
  - intros xs ->. rewrite H. reflexivity.
  - intros ->. rewrite H. reflexivity.
Qed.

Lemma find_actors_by_name_list_field_witness :
  let r := PyDict [("actors", PyList [PyStr "X"; PyStr "Y"])] in
  outcome (find_actors_by_name (Ret (Some (fixed_reply r))) (PyStr "*"))
  = Ret (PyList [PyStr "X"; PyStr "Y"]).
Proof.
  intros r.
  destruct (find_actors_by_name_list_field (fixed_reply r) (PyStr "*") r eq_refl)
    as (_ & Hxs & _).
  apply Hxs. reflexivity.
Defined.

(** ** Listing the actors of the level *)

(** C3, as worded, fails. The reply [{"result": None, "content": ["A", "B"]}]
    is not empty, has no nested mapping under ["result"] and carries
    ["content"] directly, so the rule selects [["A", "B"]]; the code evaluates
    ["content" in response["result"]] on [None], which raises, and the
    handler returns the empty list. *)
Lemma get_actors_in_level_result_not_mapping :
  let r := PyDict [("result", PyNone); ("content", PyList [PyStr "A"; PyStr "B"])] in
  empty_or_absent r = false
  /\ nested_content r = None
  /\ direct_content r = Some (PyList [PyStr "A"; PyStr "B"])
  /\ list_content_spec r = PyList [PyStr "A"; PyStr "B"]
  /\ get_actors_in_level (Ret (Some (fixed_reply r)))
     = ([("get_actors_in_level", PyDict [])], Ret (PyList [])).
Proof. repeat split. Qed.

(** The same reply with a number under ["content"]: [len] raises on it while
    the log line is built, and the empty list is returned. *)
Example get_actors_in_level_unsized_content :
  outcome (get_actors_in_level
             (Ret (Some (fixed_reply (PyDict [("content", PyInt 5)])))))
  = Ret (PyList []).
Proof. reflexivity. Qed.

(** C3, amended. For every reply whose ["result"] entry, when present, is a
    mapping and whose selected content has a length (a list, a string or a
    mapping), [get_actors_in_level] returns: the empty list when the reply
    is empty or absent; else the content under ["result"] when that mapping
    has the key ["content"]; else the content directly under ["content"];
    else the empty list. The nested content wins when both are there. *)
Theorem get_actors_in_level_list_content :
  forall (conn : UnrealConnection) (r : PyVal),
    send_command conn "get_actors_in_level" (PyDict []) = Ret r ->
    content_shaped r = true ->
    outcome (get_actors_in_level (Ret (Some conn))) = Ret (list_content_spec r)
    /\ (empty_or_absent r = true -> list_content_spec r = PyList [])
    /\ (forall nested direct : list PyVal,
          r = PyDict [("result", PyDict [("content", PyList nested)]);
                      ("content", PyList direct)] ->
          list_content_spec r = PyList nested)
    /\ (forall direct : list PyVal,
          r = PyDict [("content", PyList direct)] ->
          list_content_spec r = PyList direct).
Proof.
  intros conn r Hr Hshape. split.
  - run. rewrite Hr. unfold list_content_spec, empty_or_absent.
    destruct (truthy r) eqn:Ht; cbn; [| reflexivity].
    destruct r as [ | b | z | f | s | l | d]; cbn in *; try reflexivity.
    + destruct (str_contains "result" s); cbn; [reflexivity |].
      destruct (str_contains "content" s); reflexivity.
    + destruct (existsb (is_str "result") l); cbn; [reflexivity |].
      destruct (existsb (is_str "content") l); reflexivity.
    + unfold list_content_spec, empty_or_absent in Hshape. cbn in Hshape.
      rewrite Ht in Hshape. cbn in Hshape.
      destruct (dict_lookup "result" d) as [res |]; cbn in *.
      * destruct res; try discriminate Hshape. cbn.
        destruct (dict_lookup "content" d0) as [c |]; cbn.
        -- destruct c; try discriminate Hshape; reflexivity.
        -- destruct (dict_lookup "content" d) as [c |]; cbn; [| reflexivity].
           destruct c; try discriminate Hshape; reflexivity.
      * destruct (dict_lookup "content" d) as [c |]; cbn; [| reflexivity].
        destruct c; try discriminate Hshape; reflexivity.
  - split; [| split].
    + unfold list_content_spec. now intros ->.
    + now intros nested direct ->.
    + now intros direct ->.
Qed.

Lemma get_actors_in_level_list_content_witness :
  let r := PyDict [("result", PyDict [("content", PyList [PyStr "A"; PyStr "B"])]);
                   ("content", PyList [PyStr "C"])] in
  outcome (get_actors_in_level (Ret (Some (fixed_reply r))))
  = Ret (PyList [PyStr "A"; PyStr "B"]).
Proof.
  intros r.
  destruct (get_actors_in_level_list_content (fixed_reply r) r eq_refl eq_refl)
    as (H & _ & Hnested & _).
  rewrite H. exact (f_equal Ret (Hnested [PyStr "A"; PyStr "B"] [PyStr "C"] eq_refl)).
Defined.

(** ** Creating an actor: the shape of every run *)

Lemma validate_cons (float_of_str : string -> option spec_float)
    (param_name : string) (names : list string) (params : dict) :
  validate float_of_str (param_name :: names) params
  = match dict_lookup param_name params with
    | None => Raise (mkExc KeyError (py_quote param_name))
    | Some v =>
        match check float_of_str v with
        | Rejected => Ret (Returned (failure (invalid_format param_name)))
        | CoercionError e => Raise e
        | Accepted t => validate float_of_str names (dict_set param_name t params)
        end
    end.
Proof.
  cbn [validate py_getitem].
  destruct (dict_lookup param_name params) as [v |]; [| reflexivity].
  destruct v as [ | | | | | l | ]; try reflexivity.
  destruct l as [| a [| b [| c [| d l]]]]; try reflexivity.
  - cbn [check float_all].
    change (Z.of_nat (List.length [a; b; c]) =? 3) with true. cbn [negb].
    destruct (py_float float_of_str a); [| reflexivity].
    destruct (py_float float_of_str b); [| reflexivity].
    destruct (py_float float_of_str c); reflexivity.
  - replace (Z.of_nat (List.length (a :: b :: c :: d :: l)) =? 3) with false.
    + reflexivity.
    + symmetry. apply Z.eqb_neq. cbn [List.length]. lia.
Qed.

(** Every run of [create_actor], by cases on the lookup, the type, the
    three geometry values in the order of the loop, and the reply. *)
Lemma create_actor_cases (float_of_str : string -> option spec_float)
    (get_unreal_connection : Outcome (option UnrealConnection))
    (name type location rotation scale : PyVal) :
  create_actor float_of_str get_unreal_connection name type location rotation scale
  = match get_unreal_connection with
    | Raise e => ([], Ret (failure (error_creating_actor e)))
    | Ret unity =>
    match py_upper type with
    | Raise e => ([], Ret (failure (error_creating_actor e)))
    | Ret type_upper =>
    match check float_of_str (py_or location default_zeros) with
    | Rejected => ([], Ret (failure (invalid_format "location")))
    | CoercionError e => ([], Ret (failure (error_creating_actor e)))
    | Accepted l =>
    match check float_of_str (py_or rotation default_zeros) with
    | Rejected => ([], Ret (failure (invalid_format "rotation")))
    | CoercionError e => ([], Ret (failure (error_creating_actor e)))
    | Accepted r =>
    match check float_of_str (py_or scale default_ones) with
    | Rejected => ([], Ret (failure (invalid_format "scale")))
    | CoercionError e => ([], Ret (failure (error_creating_actor e)))
    | Accepted s =>
    match unity with
    | None =>
        ([], Ret (failure (error_creating_actor (no_attribute PyNone "send_command"))))
    | Some conn =>
        let params := create_params name type_upper l r s in
        ([("create_actor", params)],
         create_reply (send_command conn "create_actor" params))
    end end end end end end.
Proof.
  unfold create_actor, try_except, bind, pure, ret, raise, call_send_command.
  destruct get_unreal_connection as [unity | e]; [| reflexivity].
  destruct (py_upper type) as [type_upper | e]; [| reflexivity].
  rewrite validate_cons. cbn [dict_lookup String.eqb Ascii.eqb Bool.eqb].
  destruct (check float_of_str (py_or location default_zeros)); try reflexivity.
  rewrite validate_cons. cbn [dict_set dict_lookup String.eqb Ascii.eqb Bool.eqb].
  destruct (check float_of_str (py_or rotation default_zeros)); try reflexivity.
  rewrite validate_cons. cbn [dict_set dict_lookup String.eqb Ascii.eqb Bool.eqb].
  destruct (check float_of_str (py_or scale default_ones)); try reflexivity.
  cbn [validate dict_set String.eqb Ascii.eqb Bool.eqb].
  destruct unity as [conn |]; [| reflexivity].
  unfold create_params, create_reply.
  destruct (send_command conn _ _) as [reply | e]; [| reflexivity].
  destruct (truthy reply); reflexivity.
Qed.

Lemma check_default_zeros (float_of_str : string -> option spec_float) :
  check float_of_str default_zeros = Accepted default_zeros.
Proof. reflexivity. Qed.

Lemma check_default_ones (float_of_str : string -> option spec_float) :
  check float_of_str default_ones = Accepted default_ones.
Proof. reflexivity. Qed.

Lemma check_accepted (float_of_str : string -> option spec_float) (v t : PyVal) :
  check float_of_str v = Accepted t ->
  exists a b c x y z,
    v = PyList [a; b; c]
    /\ py_float float_of_str a = Ret x
    /\ py_float float_of_str b = Ret y
    /\ py_float float_of_str c = Ret z
    /\ t = PyList [PyFloat x; PyFloat y; PyFloat z].
Proof.
  destruct v as [ | | | | | l | ]; try discriminate.
  destruct l as [| a [| b [| c [| d l]]]]; try discriminate.
  cbn [check].
  destruct (py_float float_of_str a) as [x |] eqn:Ha; try discriminate.
  destruct (py_float float_of_str b) as [y |] eqn:Hb; try discriminate.
  destruct (py_float float_of_str c) as [z |] eqn:Hc; try discriminate.
  intros H. inversion H. now exists a, b, c, x, y, z.
Qed.

Lemma check_accepted_triple (float_of_str : string -> option spec_float) (v t : PyVal) :
  check float_of_str v = Accepted t -> is_float_triple t = true.
Proof.
  intros H. apply check_accepted in H.
  destruct H as (a & b & c & x & y & z & _ & _ & _ & _ & ->). reflexivity.
Qed.

(** A run of [create_actor] that invokes [send_command] went through the
    three checks. *)
Lemma create_actor_call_inv (float_of_str : string -> option spec_float)
    (get_unreal_connection : Outcome (option UnrealConnection))
    (name type location rotation scale : PyVal) (call : Call) :
  In call (calls (create_actor float_of_str get_unreal_connection
                    name type location rotation scale)) ->
  exists type_upper l r s,
    py_upper type = Ret type_upper
    /\ check float_of_str (py_or location default_zeros) = Accepted l
    /\ check float_of_str (py_or rotation default_zeros) = Accepted r
    /\ check float_of_str (py_or scale default_ones) = Accepted s
    /\ call = ("create_actor", create_params name type_upper l r s).
Proof.
  rewrite create_actor_cases.
  destruct get_unreal_connection as [unity | e]; [| intros []].
  destruct (py_upper type) as [type_upper | e]; [| intros []].
  destruct (check float_of_str (py_or location default_zeros))
    as [ | e | l]; try (intros []).
  destruct (check float_of_str (py_or rotation default_zeros))
    as [ | e | r]; try (intros []).
  destruct (check float_of_str (py_or scale default_ones))
    as [ | e | s]; try (intros []).
  destruct unity as [conn |]; [| intros []].
  cbn. intros [<- | []]. now exists type_upper, l, r, s.
Qed.

(** ** Geometry parameters on the wire *)

(** C1, as worded, fails for [set_actor_transform]: a location of two
    integers is sent as it is. *)
Lemma set_actor_transform_sends_unvalidated_location :
  let params := PyDict [("name", PyStr "Box1");
                        ("location", PyList [PyInt 1; PyInt 2])] in
  calls (set_actor_transform (Ret (Some (fixed_reply (PyDict []))))
           (PyStr "Box1") (PyList [PyInt 1; PyInt 2]) PyNone PyNone)
  = [("set_actor_transform", params)]
  /\ geometry_ok params = false.
Proof. split; reflexivity. Qed.

(** C1, amended. Whenever [create_actor] invokes [send_command], the params
    are [name], the upper-cased [type], and [location], [rotation], [scale],
    each exactly a list of three floats: the coerced elements of the
    supplied value, or [[0.0, 0.0, 0.0]] (location, rotation) and
    [[1.0, 1.0, 1.0]] (scale) when the value is absent.
    [set_actor_transform] forwards each supplied geometry value as it is,
    without validating or coercing it. *)
Theorem create_actor_sends_float_triples :
  forall (float_of_str : string -> option spec_float)
         (get_unreal_connection : Outcome (option UnrealConnection))
         (name type location rotation scale : PyVal),
    (forall call : Call,
        In call (calls (create_actor float_of_str get_unreal_connection
                          name type location rotation scale)) ->
        exists type_upper l r s,
          call = ("create_actor", create_params name type_upper l r s)
          /\ py_upper type = Ret type_upper
          /\ check float_of_str (py_or location default_zeros) = Accepted l
          /\ check float_of_str (py_or rotation default_zeros) = Accepted r
          /\ check float_of_str (py_or scale default_ones) = Accepted s
          /\ is_float_triple l = true
          /\ is_float_triple r = true
          /\ is_float_triple s = true
          /\ geometry_ok (snd call) = true
          /\ (location = PyNone ->
              l = PyList [PyFloat (float_of_Z 0); PyFloat (float_of_Z 0);
                          PyFloat (float_of_Z 0)])
          /\ (rotation = PyNone ->
              r = PyList [PyFloat (float_of_Z 0); PyFloat (float_of_Z 0);
                          PyFloat (float_of_Z 0)])
          /\ (scale = PyNone ->
              s = PyList [PyFloat (float_of_Z 1); PyFloat (float_of_Z 1);
                          PyFloat (float_of_Z 1)]))
    /\ (forall (conn : UnrealConnection) (k : string) (v : PyVal),
          In (k, v) [("location", location); ("rotation", rotation); ("scale", scale)] ->
          v <> PyNone ->
          exists params,
            calls (set_actor_transform (Ret (Some conn)) name location rotation scale)
            = [("set_actor_transform", PyDict params)]
            /\ dict_lookup k params = Some v).
Proof.
  intros float_of_str guc name type location rotation scale. split.
  - intros call Hin.
    destruct (create_actor_call_inv _ _ _ _ _ _ _ _ Hin)
      as (type_upper & l & r & s & Hty & Hl & Hr & Hs & ->).
    exists type_upper, l, r, s.
    pose proof (check_accepted_triple _ _ _ Hl) as Tl.
    pose proof (check_accepted_triple _ _ _ Hr) as Tr.
    pose proof (check_accepted_triple _ _ _ Hs) as Ts.
    repeat (split; [assumption || reflexivity |]).
    split; [cbn; now rewrite Tl, Tr, Ts |].
    split; [| split]; intros ->.
    + change (Accepted default_zeros = Accepted l) in Hl. now inversion Hl.
    + change (Accepted default_zeros = Accepted r) in Hr. now inversion Hr.
    + change (Accepted default_ones = Accepted s) in Hs. now inversion Hs.
  - intros conn k v Hin Hv. eexists. split; [apply set_actor_transform_calls |].
    unfold transform_params.
    destruct Hin as [H | [H | [H | []]]]; inversion H; subst; clear H.
    + destruct v; [contradiction | ..];
        destruct (is_none rotation), (is_none scale); reflexivity.
    + destruct v; [contradiction | ..];
        destruct (is_none location), (is_none scale); reflexivity.
    + destruct v; [contradiction | ..];
        destruct (is_none location), (is_none rotation); reflexivity.
Qed.

Lemma create_actor_sends_float_triples_witness :
  geometry_ok
    (create_params (PyStr "Box1") (PyStr "SPHERE")
       (PyList [PyFloat (float_of_Z 1); PyFloat (float_of_Z 2); PyFloat (float_of_Z 1)])
       default_zeros default_ones) = true.
Proof.
  destruct (proj1 (create_actor_sends_float_triples float_of_digits
                     (Ret (Some (fixed_reply (PyDict [("status", PyStr "success")]))))
                     (PyStr "Box1") (PyStr "sphere")
                     (PyList [PyInt 1; PyStr "2"; PyBool true]) PyNone PyNone)
              ("create_actor",
               create_params (PyStr "Box1") (PyStr "SPHERE")
                 (PyList [PyFloat (float_of_Z 1); PyFloat (float_of_Z 2);
                          PyFloat (float_of_Z 1)])
                 default_zeros default_ones)
              (or_introl eq_refl))
    as (type_upper & l & r & s & _ & _ & _ & _ & _ & _ & _ & _ & Hok & _).
  exact Hok.
Defined.

(** ** Geometry values of the wrong length *)

Lemma wrong_length_rejected (float_of_str : string -> option spec_float)
    (v default : PyVal) :
  truthy v = true -> length_differs_from_3 v ->
  check float_of_str (py_or v default) = Rejected.
Proof.
  intros Ht (_ & n & Hlen & Hn). rewrite (py_or_truthy _ _ Ht).
  destruct v as [ | | | | | l | ]; try reflexivity.
  destruct l as [| a [| b [| c [| d l]]]]; try reflexivity.
  cbn in Hlen. inversion Hlen. congruence.
Qed.

Lemma invalid_format_names_field (field : string) :
  In field geometry_names -> str_contains field (invalid_format field) = true.
Proof. intros [<- | [<- | [<- | []]]]; reflexivity. Qed.

(** C2, as worded, fails on the empty list: its length is not 3, yet
    [location or [0.0, 0.0, 0.0]] replaces it by the default before the
    loop looks at it, and the command is sent. *)
Lemma create_actor_sends_for_empty_location :
  let reply := PyDict [("status", PyStr "success")] in
  length_differs_from_3 (PyList [])
  /\ create_actor float_of_digits (Ret (Some (fixed_reply reply)))
       (PyStr "Box1") (PyStr "cube") (PyList []) PyNone PyNone
     = ([("create_actor",
          create_params (PyStr "Box1") (PyStr "CUBE")
            default_zeros default_zeros default_ones)],
        Ret reply).
Proof.
  split; [| reflexivity].
  split; [reflexivity |]. exists 0. split; [reflexivity | discriminate].
Qed.

(** C2, amended. When a supplied location, rotation or scale is not empty
    and has a length other than 3, [create_actor] never invokes
    [send_command] and returns [{"success": False, "message": ...}]. When
    moreover the lookup returned, [type] is a string and the fields the loop
    visits earlier were accepted, the message is
    ["Invalid <field> format. Must be a list of 3 float values."], which
    names the field. *)
Theorem create_actor_rejects_wrong_length :
  forall (float_of_str : string -> option spec_float)
         (get_unreal_connection : Outcome (option UnrealConnection))
         (name type location rotation scale : PyVal),
    (truthy location = true /\ length_differs_from_3 location)
    \/ (truthy rotation = true /\ length_differs_from_3 rotation)
    \/ (truthy scale = true /\ length_differs_from_3 scale) ->
    calls (create_actor float_of_str get_unreal_connection
             name type location rotation scale) = []
    /\ (exists msg,
          outcome (create_actor float_of_str get_unreal_connection
                     name type location rotation scale) = Ret (failure msg))
    /\ (forall unity type_upper,
          get_unreal_connection = Ret unity ->
          py_upper type = Ret type_upper ->
          (truthy location = true /\ length_differs_from_3 location ->
           outcome (create_actor float_of_str get_unreal_connection
                      name type location rotation scale)
           = Ret (failure (invalid_format "location")))
          /\ (forall l,
                check float_of_str (py_or location default_zeros) = Accepted l ->
                truthy rotation = true /\ length_differs_from_3 rotation ->
                outcome (create_actor float_of_str get_unreal_connection
                           name type location rotation scale)
                = Ret (failure (invalid_format "rotation")))
          /\ (forall l r,
                check float_of_str (py_or location default_zeros) = Accepted l ->
                check float_of_str (py_or rotation default_zeros) = Accepted r ->
                truthy scale = true /\ length_differs_from_3 scale ->
                outcome (create_actor float_of_str get_unreal_connection
                           name type location rotation scale)
                = Ret (failure (invalid_format "scale"))))
    /\ (forall field, In field geometry_names ->
                      str_contains field (invalid_format field) = true).
Proof.
  intros float_of_str guc name type location rotation scale Hbad.
  assert (Hrej :
            check float_of_str (py_or location default_zeros) = Rejected
            \/ check float_of_str (py_or rotation default_zeros) = Rejected
            \/ check float_of_str (py_or scale default_ones) = Rejected).
  { destruct Hbad as [[Ht Hl] | [[Ht Hl] | [Ht Hl]]];
      [left | right; left | right; right]; now apply wrong_length_rejected. }
  rewrite create_actor_cases.
  split; [| split; [| split]].
  - destruct guc as [unity | e]; [| reflexivity].
    destruct (py_upper type); [| reflexivity].
    destruct (check float_of_str (py_or location default_zeros)); try reflexivity.
    destruct (check float_of_str (py_or rotation default_zeros)); try reflexivity.
    destruct (check float_of_str (py_or scale default_ones)); try reflexivity.
    destruct Hrej as [H | [H | H]]; discriminate H.
  - destruct guc as [unity | e]; [| eexists; reflexivity].
    destruct (py_upper type); [| eexists; reflexivity].
    destruct (check float_of_str (py_or location default_zeros));
      try (eexists; reflexivity).
    destruct (check float_of_str (py_or rotation default_zeros));
      try (eexists; reflexivity).
    destruct (check float_of_str (py_or scale default_ones));
      try (eexists; reflexivity).
    destruct Hrej as [H | [H | H]]; discriminate H.
  - intros unity type_upper -> ->. split; [| split].
    + intros [Ht Hl]. now rewrite (wrong_length_rejected _ _ _ Ht Hl).
    + intros l -> [Ht Hl]. now rewrite (wrong_length_rejected _ _ _ Ht Hl).
    + intros l r -> -> [Ht Hl]. now rewrite (wrong_length_rejected _ _ _ Ht Hl).
  - apply invalid_format_names_field.
Qed.

Lemma create_actor_rejects_wrong_length_witness :
  calls (create_actor float_of_digits (Ret (Some (fixed_reply (PyDict []))))
           (PyStr "Box1") (PyStr "cube")
           (PyList [PyInt 1; PyInt 2]) PyNone PyNone) = []
  /\ outcome (create_actor float_of_digits (Ret (Some (fixed_reply (PyDict []))))
                (PyStr "Box1") (PyStr "cube")
                (PyList [PyInt 1; PyInt 2]) PyNone PyNone)
     = Ret (failure "Invalid location format. Must be a list of 3 float values.").
Proof.
  assert (Hbad : truthy (PyList [PyInt 1; PyInt 2]) = true
                 /\ length_differs_from_3 (PyList [PyInt 1; PyInt 2])).
  { split; [reflexivity |]. split; [reflexivity |].
    exists 2. split; [reflexivity | discriminate]. }
  destruct (create_actor_rejects_wrong_length float_of_digits
              (Ret (Some (fixed_reply (PyDict []))))
              (PyStr "Box1") (PyStr "cube")
              (PyList [PyInt 1; PyInt 2]) PyNone PyNone (or_introl Hbad))
    as (Hcalls & _ & Hmsg & _).
  split; [exact Hcalls |].
  exact (proj1 (Hmsg _ _ eq_refl eq_refl) Hbad).
Defined.

(** ** Elements that cannot be made floats *)

Lemma uncoercible_fails (float_of_str : string -> option spec_float)
    (v default : PyVal) :
  has_uncoercible_element float_of_str v ->
  exists e, check float_of_str (py_or v default) = CoercionError e.
Proof.
  intros (a & b & c & x & e & -> & Hin & Hx).
  rewrite py_or_truthy by reflexivity. cbn [check].
  destruct Hin as [<- | [<- | [<- | []]]].
  - rewrite Hx. now exists e.
  - destruct (py_float float_of_str a) as [fa | ea]; [| now exists ea].
    rewrite Hx. now exists e.
  - destruct (py_float float_of_str a) as [fa | ea]; [| now exists ea].
    destruct (py_float float_of_str b) as [fb | eb]; [| now exists eb].
    rewrite Hx. now exists e.
Qed.

Lemma error_creating_actor_prefix (e : PyExc) :
  String.prefix "Error creating actor" (error_creating_actor e) = true.
Proof. reflexivity. Qed.

(** C10, as worded, fails when a field visited earlier is rejected: with a
    location of two elements and a rotation whose first element is [None],
    the loop returns the message of the location and never reaches the
    rotation. *)
Lemma create_actor_earlier_field_rejected :
  let rotation := PyList [PyNone; PyInt 1; PyInt 2] in
  has_uncoercible_element float_of_digits rotation
  /\ create_actor float_of_digits (Ret (Some (fixed_reply (PyDict []))))
       (PyStr "Box1") (PyStr "cube") (PyList [PyInt 1; PyInt 2]) rotation PyNone
     = ([], Ret (failure "Invalid location format. Must be a list of 3 float values."))
  /\ String.prefix "Error creating actor"
       "Invalid location format. Must be a list of 3 float values." = false.
Proof.
  split; [| split; reflexivity].
  exists PyNone, (PyInt 1), (PyInt 2), PyNone. eexists.
  split; [reflexivity |]. split; [now left | reflexivity].
Qed.

(** C10, amended. When a supplied location, rotation or scale has exactly
    three elements, one of which [float] refuses, [create_actor] never
    invokes [send_command] and returns [{"success": False, "message": msg}];
    [msg] begins with ["Error creating actor"], and so is no
    ["Invalid <field> format"] message, provided no field the loop visits
    before that one is rejected by the list-of-three test. *)
Theorem create_actor_uncoercible_element :
  forall (float_of_str : string -> option spec_float)
         (get_unreal_connection : Outcome (option UnrealConnection))
         (name type location rotation scale : PyVal),
    has_uncoercible_element float_of_str location
    \/ has_uncoercible_element float_of_str rotation
    \/ has_uncoercible_element float_of_str scale ->
    calls (create_actor float_of_str get_unreal_connection
             name type location rotation scale) = []
    /\ exists msg,
        outcome (create_actor float_of_str get_unreal_connection
                   name type location rotation scale) = Ret (failure msg)
        /\ ((has_uncoercible_element float_of_str location
             \/ (has_uncoercible_element float_of_str rotation
                 /\ check float_of_str (py_or location default_zeros) <> Rejected)
             \/ (has_uncoercible_element float_of_str scale
                 /\ check float_of_str (py_or location default_zeros) <> Rejected
                 /\ check float_of_str (py_or rotation default_zeros) <> Rejected)) ->
            String.prefix "Error creating actor" msg = true
            /\ forall field, msg <> invalid_format field).
Proof.
  intros float_of_str guc name type location rotation scale Hunc.
  assert (Hnot : forall e field, error_creating_actor e <> invalid_format field).
  { intros e field H. discriminate H. }
  assert (Herr :
            (exists e, check float_of_str (py_or location default_zeros) = CoercionError e)
            \/ (exists e, check float_of_str (py_or rotation default_zeros) = CoercionError e)
            \/ (exists e, check float_of_str (py_or scale default_ones) = CoercionError e)).
  { destruct Hunc as [H | [H | H]]; [left | right; left | right; right];
      now apply uncoercible_fails. }
  rewrite create_actor_cases.
  destruct guc as [unity | e].
  2:{ split; [reflexivity |]. eexists. split; [reflexivity |].
      intros _. split; [reflexivity | apply Hnot]. }
  destruct (py_upper type) as [type_upper | e].
  2:{ split; [reflexivity |]. eexists. split; [reflexivity |].
      intros _. split; [reflexivity | apply Hnot]. }
  destruct (check float_of_str (py_or location default_zeros)) as [ | e | l] eqn:Hl.
  - split; [reflexivity |]. eexists. split; [reflexivity |].
    intros [H | [[_ H] | [_ [H _]]]]; try (now contradiction H).
    destruct (uncoercible_fails _ _ default_zeros H) as [e He]. congruence.
  - split; [reflexivity |]. eexists. split; [reflexivity |].
    intros _. split; [reflexivity | apply Hnot].
  - destruct (check float_of_str (py_or rotation default_zeros)) as [ | e | r] eqn:Hr.
    + split; [reflexivity |]. eexists. split; [reflexivity |].
      intros [H | [[H _] | [_ [_ H]]]]; try (now contradiction H).
      * destruct (uncoercible_fails _ _ default_zeros H) as [e He]. congruence.
      * destruct (uncoercible_fails _ _ default_zeros H) as [e He]. congruence.
    + split; [reflexivity |]. eexists. split; [reflexivity |].
      intros _. split; [reflexivity | apply Hnot].
    + destruct (check float_of_str (py_or scale default_ones)) as [ | e | s] eqn:Hs.
      * split; [reflexivity |]. eexists. split; [reflexivity |].
        intros [H | [[H _] | [H _]]].
        -- destruct (uncoercible_fails _ _ default_zeros H) as [e He]. congruence.
        -- destruct (uncoercible_fails _ _ default_zeros H) as [e He]. congruence.
        -- destruct (uncoercible_fails _ _ default_ones H) as [e He]. congruence.
      * split; [reflexivity |]. eexists. split; [reflexivity |].
        intros _. split; [reflexivity | apply Hnot].
      * destruct Herr as [[e He] | [[e He] | [e He]]]; congruence.
Qed.

Lemma create_actor_uncoercible_element_witness :
  calls (create_actor float_of_digits (Ret (Some (fixed_reply (PyDict []))))
           (PyStr "Box1") (PyStr "cube")
           (PyList [PyInt 1; PyStr "up"; PyInt 3]) PyNone PyNone) = []
  /\ exists msg,
      outcome (create_actor float_of_digits (Ret (Some (fixed_reply (PyDict []))))
                 (PyStr "Box1") (PyStr "cube")
                 (PyList [PyInt 1; PyStr "up"; PyInt 3]) PyNone PyNone)
      = Ret (failure msg)
      /\ String.prefix "Error creating actor" msg = true.
Proof.
  assert (Hunc : has_uncoercible_element float_of_digits
                   (PyList [PyInt 1; PyStr "up"; PyInt 3])).
  { exists (PyInt 1), (PyStr "up"), (PyInt 3), (PyStr "up"). eexists.
    split; [reflexivity |]. split; [right; now left | reflexivity]. }
  destruct (create_actor_uncoercible_element float_of_digits
              (Ret (Some (fixed_reply (PyDict []))))
              (PyStr "Box1") (PyStr "cube")
              (PyList [PyInt 1; PyStr "up"; PyInt 3]) PyNone PyNone
              (or_introl Hunc))
    as (Hcalls & msg & Hout & Hmsg).
  split; [exact Hcalls |].
  exists msg. split; [exact Hout |]. exact (proj1 (Hmsg (or_introl Hunc))).
Defined.

(** ** Empty geometry values *)

Lemma check_py_or_empty (float_of_str : string -> option spec_float)
    (v default : PyVal) :
  empty_or_absent v = true ->
  check float_of_str default = Accepted default ->
  check float_of_str (py_or v default) = Accepted default.
Proof.
  unfold empty_or_absent, py_or. destruct (truthy v); [discriminate | auto].
Qed.

(** C9, as worded, fails when another geometry value is rejected: with an
    empty location and a rotation of two elements the empty location is
    replaced by the default, but the loop then returns the message of the
    rotation and nothing is sent. *)
Lemma create_actor_empty_location_other_field_rejected :
  empty_or_absent (PyList []) = true
  /\ create_actor float_of_digits
       (Ret (Some (fixed_reply (PyDict [("status", PyStr "success")]))))
       (PyStr "Box1") (PyStr "cube") (PyList []) (PyList [PyInt 1; PyInt 2]) PyNone
     = ([], Ret (failure "Invalid rotation format. Must be a list of 3 float values.")).
Proof. split; reflexivity. Qed.

(** C9, amended. An empty location, rotation or scale (an empty list, or
    any other value Python counts as false) is not rejected by
    [create_actor]: the run is the one of the call with that argument left
    out, and every command sent carries the default triple in its place.
    Provided the lookup returns a connection, [type] is a string and each
    geometry value is empty or passes validation, the command is sent and
    the result is the one the reply determines, not a validation
    failure. *)
Theorem create_actor_empty_geometry_defaulted :
  forall (float_of_str : string -> option spec_float)
         (get_unreal_connection : Outcome (option UnrealConnection))
         (name type location rotation scale : PyVal),
    (empty_or_absent location = true ->
     create_actor float_of_str get_unreal_connection name type location rotation scale
     = create_actor float_of_str get_unreal_connection name type PyNone rotation scale)
    /\ (empty_or_absent rotation = true ->
        create_actor float_of_str get_unreal_connection name type location rotation scale
        = create_actor float_of_str get_unreal_connection name type location PyNone scale)
    /\ (empty_or_absent scale = true ->
        create_actor float_of_str get_unreal_connection name type location rotation scale
        = create_actor float_of_str get_unreal_connection name type location rotation PyNone)
    /\ (forall call : Call,
          In call (calls (create_actor float_of_str get_unreal_connection
                            name type location rotation scale)) ->
          exists type_upper l r s,
            call = ("create_actor", create_params name type_upper l r s)
            /\ (empty_or_absent location = true ->
                l = PyList [PyFloat (float_of_Z 0); PyFloat (float_of_Z 0);
                            PyFloat (float_of_Z 0)])
            /\ (empty_or_absent rotation = true ->
                r = PyList [PyFloat (float_of_Z 0); PyFloat (float_of_Z 0);
                            PyFloat (float_of_Z 0)])
            /\ (empty_or_absent scale = true ->
                s = PyList [PyFloat (float_of_Z 1); PyFloat (float_of_Z 1);
                            PyFloat (float_of_Z 1)]))
    /\ (forall conn type_upper,
          get_unreal_connection = Ret (Some conn) ->
          py_upper type = Ret type_upper ->
          (empty_or_absent location = true
           \/ exists l, check float_of_str location = Accepted l) ->
          (empty_or_absent rotation = true
           \/ exists r, check float_of_str rotation = Accepted r) ->
          (empty_or_absent scale = true
           \/ exists s, check float_of_str scale = Accepted s) ->
          exists l r s,
            calls (create_actor float_of_str get_unreal_connection
                     name type location rotation scale)
            = [("create_actor", create_params name type_upper l r s)]
            /\ outcome (create_actor float_of_str get_unreal_connection
                          name type location rotation scale)
               = match send_command conn "create_actor"
                         (create_params name type_upper l r s) with
                 | Ret reply =>
                     Ret (if empty_or_absent reply
                          then failure "No response from Unreal Engine"
                          else reply)
                 | Raise e => Ret (failure ("Error creating actor: " ++ exc_str e))
                 end).
Proof.
  intros float_of_str guc name type location rotation scale.
  split; [| split; [| split; [| split]]].
  - unfold empty_or_absent, create_actor, py_or. cbn [truthy].
    destruct (truthy location); [discriminate | reflexivity].
  - unfold empty_or_absent, create_actor, py_or. cbn [truthy].
    destruct (truthy rotation); [discriminate | reflexivity].
  - unfold empty_or_absent, create_actor, py_or. cbn [truthy].
    destruct (truthy scale); [discriminate | reflexivity].
  - intros call Hin.
    destruct (create_actor_call_inv _ _ _ _ _ _ _ _ Hin)
      as (type_upper & l & r & s & _ & Hl & Hr & Hs & ->).
    exists type_upper, l, r, s. split; [reflexivity |].
    split; [| split]; intros He.
    + rewrite (check_py_or_empty _ _ _ He (check_default_zeros _)) in Hl.
      now inversion Hl.
    + rewrite (check_py_or_empty _ _ _ He (check_default_zeros _)) in Hr.
      now inversion Hr.
    + rewrite (check_py_or_empty _ _ _ He (check_default_ones _)) in Hs.
      now inversion Hs.
  - intros conn type_upper -> Hty Hl Hr Hs.
    assert (Al : exists l, check float_of_str (py_or location default_zeros)
                           = Accepted l).
    { destruct Hl as [He | [l Hl]].
      - eexists. apply (check_py_or_empty _ _ _ He (check_default_zeros _)).
      - exists l. unfold py_or. destruct (truthy location) eqn:Ht; [exact Hl |].
        apply check_accepted in Hl.
        destruct Hl as (a & b & c & _ & _ & _ & -> & _). discriminate Ht. }
    assert (Ar : exists r, check float_of_str (py_or rotation default_zeros)
                           = Accepted r).
    { destruct Hr as [He | [r Hr]].
      - eexists. apply (check_py_or_empty _ _ _ He (check_default_zeros _)).
      - exists r. unfold py_or. destruct (truthy rotation) eqn:Ht; [exact Hr |].
        apply check_accepted in Hr.
        destruct Hr as (a & b & c & _ & _ & _ & -> & _). discriminate Ht. }
    assert (As : exists s, check float_of_str (py_or scale default_ones)
                           = Accepted s).
    { destruct Hs as [He | [s Hs]].
      - eexists. apply (check_py_or_empty _ _ _ He (check_default_ones _)).
      - exists s. unfold py_or. destruct (truthy scale) eqn:Ht; [exact Hs |].
        apply check_accepted in Hs.
        destruct Hs as (a & b & c & _ & _ & _ & -> & _). discriminate Ht. }
    destruct Al as [l Al], Ar as [r Ar], As as [s As].
    exists l, r, s. rewrite create_actor_cases, Hty, Al, Ar, As.
    split; [reflexivity |]. cbn. unfold empty_or_absent.
    destruct (send_command conn _ _) as [reply | e]; cbn; [| reflexivity].
    now destruct (truthy reply).
Qed.

Lemma create_actor_empty_geometry_defaulted_witness :
  create_actor float_of_digits
    (Ret (Some (fixed_reply (PyDict [("status", PyStr "success")]))))
    (PyStr "Box1") (PyStr "cube") (PyList []) PyNone PyNone
  = ([("create_actor",
       create_params (PyStr "Box1") (PyStr "CUBE")
         default_zeros default_zeros default_ones)],
     Ret (PyDict [("status", PyStr "success")])).
Proof.
  rewrite (proj1 (create_actor_empty_geometry_defaulted float_of_digits
                    (Ret (Some (fixed_reply (PyDict [("status", PyStr "success")]))))
                    (PyStr "Box1") (PyStr "cube") (PyList []) PyNone PyNone)
             eq_refl).
  reflexivity.
Defined.

(** ** Nothing is raised to the caller *)

Lemma try_except_returns {A : Type} (body : Run A) (default : PyExc -> A) :
  exists v, outcome (try_except body (fun e => ret (default e))) = Ret v.
Proof.
  destruct body as [t [a | e]]; cbn; eauto.
Qed.

(** C6. Each of the six operations ends by returning a value, whatever its
    arguments, whatever the lookup does and whatever [send_command] does.
    When the lookup raises or yields no connection, or when the one
    invocation of [send_command] the operation makes raises, the value is
    the empty list for the two listing operations,
    [{"success": False, "message": ...}] for [create_actor], and the empty
    mapping for the other three. *)
Theorem operations_never_raise :
  forall (float_of_str : string -> option spec_float)
         (get_unreal_connection : Outcome (option UnrealConnection))
         (pattern name type location rotation scale : PyVal),
    ((exists v, outcome (get_actors_in_level get_unreal_connection) = Ret v)
     /\ (exists v, outcome (find_actors_by_name get_unreal_connection pattern) = Ret v)
     /\ (exists v, outcome (create_actor float_of_str get_unreal_connection
                              name type location rotation scale) = Ret v)
     /\ (exists v, outcome (delete_actor get_unreal_connection name) = Ret v)
     /\ (exists v, outcome (set_actor_transform get_unreal_connection
                              name location rotation scale) = Ret v)
     /\ (exists v, outcome (get_actor_properties get_unreal_connection name) = Ret v))
    /\ (forall e, get_unreal_connection = Raise e ->
        outcome (get_actors_in_level get_unreal_connection) = Ret (PyList [])
        /\ outcome (find_actors_by_name get_unreal_connection pattern) = Ret (PyList [])
        /\ outcome (create_actor float_of_str get_unreal_connection
                      name type location rotation scale)
           = Ret (failure ("Error creating actor: " ++ exc_str e))
        /\ outcome (delete_actor get_unreal_connection name) = Ret (PyDict [])
        /\ outcome (set_actor_transform get_unreal_connection
                      name location rotation scale) = Ret (PyDict [])
        /\ outcome (get_actor_properties get_unreal_connection name) = Ret (PyDict []))
    /\ (get_unreal_connection = Ret None ->
        outcome (get_actors_in_level get_unreal_connection) = Ret (PyList [])
        /\ outcome (find_actors_by_name get_unreal_connection pattern) = Ret (PyList [])
        /\ (exists msg,
              outcome (create_actor float_of_str get_unreal_connection
                         name type location rotation scale) = Ret (failure msg))
        /\ outcome (delete_actor get_unreal_connection name) = Ret (PyDict [])
        /\ outcome (set_actor_transform get_unreal_connection
                      name location rotation scale) = Ret (PyDict [])
        /\ outcome (get_actor_properties get_unreal_connection name) = Ret (PyDict []))
    /\ (forall conn e,
          get_unreal_connection = Ret (Some conn) ->
          (send_command conn "get_actors_in_level" (PyDict []) = Raise e ->
           outcome (get_actors_in_level get_unreal_connection) = Ret (PyList []))
          /\ (send_command conn "find_actors_by_name" (PyDict [("pattern", pattern)])
              = Raise e ->
              outcome (find_actors_by_name get_unreal_connection pattern)
              = Ret (PyList []))
          /\ (forall params,
                calls (create_actor float_of_str get_unreal_connection
                         name type location rotation scale)
                = [("create_actor", params)] ->
                send_command conn "create_actor" params = Raise e ->
                outcome (create_actor float_of_str get_unreal_connection
                           name type location rotation scale)
                = Ret (failure ("Error creating actor: " ++ exc_str e)))
          /\ (send_command conn "delete_actor" (PyDict [("name", name)]) = Raise e ->
              outcome (delete_actor get_unreal_connection name) = Ret (PyDict []))
          /\ (send_command conn "set_actor_transform"
                (PyDict (transform_params name location rotation scale)) = Raise e ->
              outcome (set_actor_transform get_unreal_connection
                         name location rotation scale) = Ret (PyDict []))
          /\ (send_command conn "get_actor_properties" (PyDict [("name", name)])
              = Raise e ->
              outcome (get_actor_properties get_unreal_connection name)
              = Ret (PyDict []))).
Proof.
  intros float_of_str guc pattern name type location rotation scale.
  split; [| split; [| split]].
  - repeat split.
    + apply (try_except_returns _ (fun _ => PyList [])).
    + apply (try_except_returns _ (fun _ => PyList [])).
    + apply (try_except_returns _ (fun e => failure ("Error creating actor: " ++ exc_str e))).
    + apply (try_except_returns _ (fun _ => PyDict [])).
    + apply (try_except_returns _ (fun _ => PyDict [])).
    + apply (try_except_returns _ (fun _ => PyDict [])).
  - intros e ->. repeat split; reflexivity.
  - intros ->. repeat split; try reflexivity.
    rewrite create_actor_cases.
    destruct (py_upper type); [| eexists; reflexivity].
    destruct (check float_of_str (py_or location default_zeros));
      try (eexists; reflexivity).
    destruct (check float_of_str (py_or rotation default_zeros));
      try (eexists; reflexivity).
    destruct (check float_of_str (py_or scale default_ones));
      eexists; reflexivity.
  - intros conn e ->. repeat split.
    + intros H. run_unfold. now rewrite H.
    + intros H. run_unfold. now rewrite H.
    + intros params. rewrite create_actor_cases.
      destruct (py_upper type) as [type_upper | e0]; [| discriminate].
      destruct (check float_of_str (py_or location default_zeros))
        as [ | e0 | l]; try discriminate.
      destruct (check float_of_str (py_or rotation default_zeros))
        as [ | e0 | r]; try discriminate.
      destruct (check float_of_str (py_or scale default_ones))
        as [ | e0 | s]; try discriminate.
      cbn. intros Hc He. inversion Hc. subst params. now rewrite He.
    + intros H. run_unfold. now rewrite H.
    + intros H. run_unfold. now rewrite H.
    + intros H. run_unfold. now rewrite H.
Qed.

(** A connection that fails on ["delete_actor"] alone, and one that fails
    on everything. *)
Lemma operations_never_raise_witness :
  outcome (delete_actor (Ret (Some refuses_delete)) (PyStr "Box1")) = Ret (PyDict [])
  /\ outcome (get_actors_in_level (Ret (Some broken_connection))) = Ret (PyList [])
  /\ outcome (create_actor float_of_digits (Ret (Some broken_connection))
                (PyStr "Box1") (PyStr "cube") PyNone PyNone PyNone)
     = Ret (failure "Error creating actor: connection closed").
Proof.
  split; [| split].
  - destruct (proj2 (proj2 (proj2
               (operations_never_raise float_of_digits (Ret (Some refuses_delete))
                  (PyStr "Box*") (PyStr "Box1") (PyStr "cube") PyNone PyNone PyNone)))
               refuses_delete (mkExc (OtherException "TimeoutError") "timed out")
               eq_refl) as (_ & _ & _ & Hd & _).
    apply Hd. reflexivity.
  - destruct (proj2 (proj2 (proj2
               (operations_never_raise float_of_digits (Ret (Some broken_connection))
                  (PyStr "Box*") (PyStr "Box1") (PyStr "cube") PyNone PyNone PyNone)))
               broken_connection
               (mkExc (OtherException "ConnectionError") "connection closed")
               eq_refl) as (Hg & _).
    apply Hg. reflexivity.
  - destruct (proj2 (proj2 (proj2
               (operations_never_raise float_of_digits (Ret (Some broken_connection))
                  (PyStr "Box*") (PyStr "Box1") (PyStr "cube") PyNone PyNone PyNone)))
               broken_connection
               (mkExc (OtherException "ConnectionError") "connection closed")
               eq_refl) as (_ & _ & Hc & _).
    apply (Hc (create_params (PyStr "Box1") (PyStr "CUBE")
                 default_zeros default_zeros default_ones)); reflexivity.
Defined.

(** ** What is sent, and how often *)

Lemma calls_try_except_ret {A : Type} (body : Run A) (default : PyExc -> A) :
  calls (try_except body (fun e => ret (default e))) = calls body.
Proof.
  destruct body as [t [a | e]]; cbn; [reflexivity | apply app_nil_r].
Qed.

Ltac split_run :=
  repeat (cbn;
          match goal with
          | |- context [match ?x with Ret _ => _ | Raise _ => _ end] => destruct x
          | |- context [if ?b then _ else _] => destruct b
          end).

Lemma get_actors_in_level_calls (get_unreal_connection : Outcome (option UnrealConnection)) :
  calls (get_actors_in_level get_unreal_connection)
  = match get_unreal_connection with
    | Ret (Some _) => [("get_actors_in_level", PyDict [])]
    | _ => []
    end.
Proof.
  unfold get_actors_in_level.
  rewrite (calls_try_except_ret _ (fun _ => PyList [])).
  destruct get_unreal_connection as [[conn |] | e]; try reflexivity.
  run_unfold. split_run; reflexivity.
Qed.

Lemma find_actors_by_name_calls (get_unreal_connection : Outcome (option UnrealConnection))
    (pattern : PyVal) :
  calls (find_actors_by_name get_unreal_connection pattern)
  = match get_unreal_connection with
    | Ret (Some _) => [("find_actors_by_name", PyDict [("pattern", pattern)])]
    | _ => []
    end.
Proof.
  unfold find_actors_by_name.
  rewrite (calls_try_except_ret _ (fun _ => PyList [])).
  destruct get_unreal_connection as [[conn |] | e]; try reflexivity.
  run_unfold. split_run; reflexivity.
Qed.

Lemma passthrough_calls (get_unreal_connection : Outcome (option UnrealConnection))
    (command : string) (params : PyVal) :
  calls (try_except
           (unity <- pure get_unreal_connection ;;
            response <- call_send_command unity command params ;;
            ret (py_or response (PyDict [])))
           (fun _ => ret (PyDict [])))
  = match get_unreal_connection with
    | Ret (Some _) => [(command, params)]
    | _ => []
    end.
Proof.
  rewrite (calls_try_except_ret _ (fun _ => PyDict [])).
  destruct get_unreal_connection as [[conn |] | e]; try reflexivity.
  run_unfold. split_run; reflexivity.
Qed.

Lemma create_actor_calls_cases (float_of_str : string -> option spec_float)
    (get_unreal_connection : Outcome (option UnrealConnection))
    (name type location rotation scale : PyVal) :
  calls (create_actor float_of_str get_unreal_connection
           name type location rotation scale) = []
  \/ exists conn type_upper l r s,
      get_unreal_connection = Ret (Some conn)
      /\ py_upper type = Ret type_upper
      /\ check float_of_str (py_or location default_zeros) = Accepted l
      /\ check float_of_str (py_or rotation default_zeros) = Accepted r
      /\ check float_of_str (py_or scale default_ones) = Accepted s
      /\ calls (create_actor float_of_str get_unreal_connection
                  name type location rotation scale)
         = [("create_actor", create_params name type_upper l r s)].
Proof.
  rewrite create_actor_cases.
  destruct get_unreal_connection as [unity | e]; [| now left].
  destruct (py_upper type) as [type_upper | e]; [| now left].
  destruct (check float_of_str (py_or location default_zeros))
    as [ | e | l]; try (now left).
  destruct (check float_of_str (py_or rotation default_zeros))
    as [ | e | r]; try (now left).
  destruct (check float_of_str (py_or scale default_ones))
    as [ | e | s]; try (now left).
  destruct unity as [conn |]; [| now left].
  right. now exists conn, type_upper, l, r, s.
Qed.

(** X1. Whatever its arguments, the lookup and the connection do, each of
    the six operations invokes [send_command] at most once, and only under
    the command name that is its own. *)
Theorem operations_send_at_most_once :
  forall (float_of_str : string -> option spec_float)
         (get_unreal_connection : Outcome (option UnrealConnection))
         (pattern name type location rotation scale : PyVal)
         (command : string) (run : Run PyVal),
    In (command, run)
       [("get_actors_in_level", get_actors_in_level get_unreal_connection);
        ("find_actors_by_name", find_actors_by_name get_unreal_connection pattern);
        ("create_actor", create_actor float_of_str get_unreal_connection
                           name type location rotation scale);
        ("delete_actor", delete_actor get_unreal_connection name);
        ("set_actor_transform", set_actor_transform get_unreal_connection
                                  name location rotation scale);
        ("get_actor_properties", get_actor_properties get_unreal_connection name)] ->
    (List.length (calls run) <= 1)%nat
    /\ forall call, In call (calls run) -> fst call = command.
Proof.
  intros float_of_str guc pattern name type location rotation scale command run Hin.
  assert (H : calls run = [] \/ exists params, calls run = [(command, params)]).
  { destruct Hin as [H | [H | [H | [H | [H | [H | []]]]]]]; inversion H; subst; clear H.
    - rewrite get_actors_in_level_calls. destruct guc as [[conn |] | e]; eauto.
    - rewrite find_actors_by_name_calls. destruct guc as [[conn |] | e]; eauto.
    - destruct (create_actor_calls_cases float_of_str guc name type location
                  rotation scale) as [H | (conn & t & l & r & s & _ & _ & _ & _ & _ & H)];
        eauto.
    - unfold delete_actor. rewrite passthrough_calls.
      destruct guc as [[conn |] | e]; eauto.
    - unfold set_actor_transform. rewrite passthrough_calls.
      destruct guc as [[conn |] | e]; eauto.
    - unfold get_actor_properties. rewrite passthrough_calls.
      destruct guc as [[conn |] | e]; eauto. }
  destruct H as [-> | [params ->]]; cbn.
  - split; [lia | intros call []].
  - split; [lia | intros call [<- | []]; reflexivity].
Qed.

Lemma operations_send_at_most_once_witness :
  (List.length (calls (find_actors_by_name (Ret (Some broken_connection))
                         (PyStr "Box*"))) <= 1)%nat.
Proof.
  exact (proj1 (operations_send_at_most_once float_of_digits
                  (Ret (Some broken_connection))
                  (PyStr "Box*") (PyStr "Box1") (PyStr "cube") PyNone PyNone PyNone
                  "find_actors_by_name" _ (or_intror (or_introl eq_refl)))).
Defined.

(** X2. [get_actors_in_level], [find_actors_by_name], [delete_actor] and
    [get_actor_properties] send their command exactly when the lookup
    returns a connection, with the params [{}], [{"pattern": pattern}],
    [{"name": name}] and [{"name": name}], whatever the connection answers;
    when the lookup raises or returns [None] they send nothing. *)
Theorem simple_operations_calls :
  forall (get_unreal_connection : Outcome (option UnrealConnection))
         (pattern name : PyVal),
    let sent (call : Call) : list Call :=
      match get_unreal_connection with
      | Ret (Some _) => [call]
      | _ => []
      end in
    calls (get_actors_in_level get_unreal_connection)
    = sent ("get_actors_in_level", PyDict [])
    /\ calls (find_actors_by_name get_unreal_connection pattern)
       = sent ("find_actors_by_name", PyDict [("pattern", pattern)])
    /\ calls (delete_actor get_unreal_connection name)
       = sent ("delete_actor", PyDict [("name", name)])
    /\ calls (get_actor_properties get_unreal_connection name)
       = sent ("get_actor_properties", PyDict [("name", name)]).
Proof.
  intros guc pattern name sent. subst sent. cbv beta.
  split; [apply get_actors_in_level_calls |].
  split; [apply find_actors_by_name_calls |].
  split; [apply passthrough_calls | apply passthrough_calls].
Qed.

(** X3. [create_actor] invokes [send_command] if and only if the lookup
    returns a connection, [type] is a string, and each of location,
    rotation and scale, after defaulting, is a list of three elements that
    [float] accepts. *)
Theorem create_actor_sends_iff :
  forall (float_of_str : string -> option spec_float)
         (get_unreal_connection : Outcome (option UnrealConnection))
         (name type location rotation scale : PyVal),
    calls (create_actor float_of_str get_unreal_connection
             name type location rotation scale) <> []
    <-> ((exists conn, get_unreal_connection = Ret (Some conn))
         /\ (exists s, type = PyStr s)
         /\ (exists l, check float_of_str (py_or location default_zeros) = Accepted l)
         /\ (exists r, check float_of_str (py_or rotation default_zeros) = Accepted r)
         /\ (exists s, check float_of_str (py_or scale default_ones) = Accepted s)).
Proof.
  intros float_of_str guc name type location rotation scale. split.
  - intros Hne.
    destruct (create_actor_calls_cases float_of_str guc name type location
                rotation scale)
      as [H | (conn & t & l & r & s & Hg & Ht & Hl & Hr & Hs & _)];
      [contradiction |].
    repeat split; eauto.
    destruct type; try discriminate Ht. eauto.
  - intros ((conn & ->) & (s0 & ->) & (l & Hl) & (r & Hr) & (s & Hs)).
    rewrite create_actor_cases, Hl, Hr, Hs. discriminate.
Qed.

(** ** What the operations return *)

(** X4. Once [create_actor] has sent its command, a reply that is empty or
    absent becomes [{"success": False, "message": "No response from Unreal
    Engine"}], any other reply is returned unchanged, and an exception of
    [send_command] becomes the message ["Error creating actor: "] followed
    by its text. *)
Theorem create_actor_reply :
  forall (float_of_str : string -> option spec_float) (conn : UnrealConnection)
         (name type location rotation scale params : PyVal),
    calls (create_actor float_of_str (Ret (Some conn))
             name type location rotation scale) = [("create_actor", params)] ->
    (forall r, send_command conn "create_actor" params = Ret r ->
               outcome (create_actor float_of_str (Ret (Some conn))
                          name type location rotation scale)
               = Ret (if empty_or_absent r
                      then failure "No response from Unreal Engine" else r))
    /\ (forall e, send_command conn "create_actor" params = Raise e ->
                  outcome (create_actor float_of_str (Ret (Some conn))
                             name type location rotation scale)
                  = Ret (failure ("Error creating actor: " ++ exc_str e))).
Proof.
  intros float_of_str conn name type location rotation scale params.
  rewrite create_actor_cases.
  destruct (py_upper type) as [type_upper | e]; [| discriminate].
  destruct (check float_of_str (py_or location default_zeros))
    as [ | e | l]; try discriminate.
  destruct (check float_of_str (py_or rotation default_zeros))
    as [ | e | r]; try discriminate.
  destruct (check float_of_str (py_or scale default_ones))
    as [ | e | s]; try discriminate.
  cbn. intros H. inversion H. subst params. unfold empty_or_absent.
  split; [intros reply -> | intros e ->]; cbn; [| reflexivity].
  now destruct (truthy reply).
Qed.

Lemma create_actor_reply_witness :
  outcome (create_actor float_of_digits (Ret (Some (fixed_reply (PyDict []))))
             (PyStr "Box1") (PyStr "cube") PyNone PyNone PyNone)
  = Ret (failure "No response from Unreal Engine").
Proof.
  exact (proj1 (create_actor_reply float_of_digits (fixed_reply (PyDict []))
                  (PyStr "Box1") (PyStr "cube") PyNone PyNone PyNone _ eq_refl)
           (PyDict []) eq_refl).
Defined.

(** X5. The value [create_actor] returns is never empty: it is a failure
    mapping or a reply that Python counts as true, so the truth value of
    the result does not tell success from failure. *)
Theorem create_actor_result_truthy :
  forall (float_of_str : string -> option spec_float)
         (get_unreal_connection : Outcome (option UnrealConnection))
         (name type location rotation scale : PyVal),
    exists v,
      outcome (create_actor float_of_str get_unreal_connection
                 name type location rotation scale) = Ret v
      /\ truthy v = true.
Proof.
  intros float_of_str guc name type location rotation scale.
  rewrite create_actor_cases.
  destruct guc as [unity | e]; [| eexists; split; reflexivity].
  destruct (py_upper type) as [type_upper | e]; [| eexists; split; reflexivity].
  destruct (check float_of_str (py_or location default_zeros))
    as [ | e | l]; try (eexists; split; reflexivity).
  destruct (check float_of_str (py_or rotation default_zeros))
    as [ | e | r]; try (eexists; split; reflexivity).
  destruct (check float_of_str (py_or scale default_ones))
    as [ | e | s]; try (eexists; split; reflexivity).
  destruct unity as [conn |]; [| eexists; split; reflexivity].
  cbn. destruct (send_command conn _ _) as [reply | e]; cbn.
  - destruct (truthy reply) eqn:Ht; eexists; split; try reflexivity. exact Ht.
  - eexists; split; reflexivity.
Qed.

(** X6. The value [get_actors_in_level] returns always has a length: it is
    the empty list, or a content value on which [len] succeeded (a list, a
    string or a mapping). *)
Theorem get_actors_in_level_result_sized :
  forall (get_unreal_connection : Outcome (option UnrealConnection)),
    exists v,
      outcome (get_actors_in_level get_unreal_connection) = Ret v
      /\ has_len v = true.
Proof.
  intros guc. run_unfold.
  destruct guc as [[conn |] | e]; cbn; try (eexists; split; reflexivity).
  destruct (send_command conn _ _) as [r | e]; cbn;
    [| eexists; split; reflexivity].
  destruct (truthy r); cbn; [| eexists; split; reflexivity].
  destruct (py_contains "result" r) as [[|] | e]; cbn;
    try (eexists; split; reflexivity).
  - destruct (py_getitem r "result") as [res | e]; cbn;
      [| eexists; split; reflexivity].
    destruct (py_contains "content" res) as [[|] | e]; cbn;
      try (eexists; split; reflexivity).
    + destruct (py_getitem res "content") as [a | e]; cbn;
        [| eexists; split; reflexivity].
      destruct a; cbn; eexists; split; reflexivity.
    + destruct (py_contains "content" r) as [[|] | e]; cbn;
        try (eexists; split; reflexivity).
      destruct (py_getitem r "content") as [a | e]; cbn;
        [| eexists; split; reflexivity].
      destruct a; cbn; eexists; split; reflexivity.
  - destruct (py_contains "content" r) as [[|] | e]; cbn;
      try (eexists; split; reflexivity).
    destruct (py_getitem r "content") as [a | e]; cbn;
      [| eexists; split; reflexivity].
    destruct a; cbn; eexists; split; reflexivity.
Qed.

(** X7. A reply to [get_actors_in_level] that is a mapping whose ["result"]
    entry is [None], a boolean or a number yields the empty list, whatever
    else the mapping carries: the membership test on that entry raises. *)
Theorem get_actors_in_level_scalar_result :
  forall (conn : UnrealConnection) (d : dict) (v : PyVal),
    send_command conn "get_actors_in_level" (PyDict []) = Ret (PyDict d) ->
    dict_lookup "result" d = Some v ->
    has_len v = false ->
    outcome (get_actors_in_level (Ret (Some conn))) = Ret (PyList []).
Proof.
  intros conn d v Hr Hres Hv. run. rewrite Hr.
  destruct d as [| kv d']; [discriminate Hres |]. cbn [truthy negb].
  cbn [py_contains py_getitem]. rewrite Hres. cbn.
  destruct v; try discriminate Hv; reflexivity.
Qed.

Lemma get_actors_in_level_scalar_result_witness :
  outcome (get_actors_in_level
             (Ret (Some (fixed_reply
                           (PyDict [("content", PyList [PyStr "A"]);
                                    ("result", PyInt 0)])))))
  = Ret (PyList []).
Proof.
  exact (get_actors_in_level_scalar_result
           (fixed_reply (PyDict [("content", PyList [PyStr "A"]); ("result", PyInt 0)]))
           [("content", PyList [PyStr "A"]); ("result", PyInt 0)] (PyInt 0)
           eq_refl eq_refl eq_refl).
Defined.

(** ** The validation loop on any params mapping *)

Lemma dict_lookup_set_same (k : string) (v : PyVal) (d : dict) :
  dict_lookup k (dict_set k v d) = Some v.
Proof.
  induction d as [| [k' v'] d IH]; cbn.
  - now rewrite String.eqb_refl.
  - destruct (String.eqb k k') eqn:E; cbn; rewrite E; [reflexivity | exact IH].
Qed.

Lemma dict_lookup_set_other (k k' : string) (v : PyVal) (d : dict) :
  k' <> k -> dict_lookup k' (dict_set k v d) = dict_lookup k' d.
Proof.
  intros Hne. induction d as [| [k0 v0] d IH]; cbn.
  - apply String.eqb_neq in Hne. now rewrite Hne.
  - destruct (String.eqb k k0) eqn:E; cbn.
    + apply String.eqb_eq in E. subst k0.
      apply String.eqb_neq in Hne. now rewrite Hne.
    + now rewrite IH.
Qed.

Lemma dict_set_keys (k : string) (v v0 : PyVal) (d : dict) :
  dict_lookup k d = Some v0 -> map fst (dict_set k v d) = map fst d.
Proof.
  induction d as [| [k' v'] d IH]; cbn; [discriminate |].
  destruct (String.eqb k k'); cbn; [reflexivity |].
  intros H. now rewrite IH.
Qed.

Lemma dict_set_same (k : string) (v : PyVal) (d : dict) :
  dict_lookup k d = Some v -> dict_set k v d = d.
Proof.
  induction d as [| [k' v'] d IH]; cbn; [discriminate |].
  destruct (String.eqb k k').
  - intros H. now inversion H.
  - intros H. now rewrite IH.
Qed.

Lemma validate_completed_step (float_of_str : string -> option spec_float)
    (param_name : string) (names : list string) (params params' : dict) :
  validate float_of_str (param_name :: names) params = Ret (Completed params') ->
  exists v t,
    dict_lookup param_name params = Some v
    /\ check float_of_str v = Accepted t
    /\ validate float_of_str names (dict_set param_name t params)
       = Ret (Completed params').
Proof.
  rewrite validate_cons.
  destruct (dict_lookup param_name params) as [v |]; [| discriminate].
  destruct (check float_of_str v) as [ | e | t] eqn:Hc; try discriminate.
  intros H. now exists v, t.
Qed.

Lemma validate_untouched (float_of_str : string -> option spec_float)
    (names : list string) :
  forall (params params' : dict) (k : string),
    validate float_of_str names params = Ret (Completed params') ->
    ~ In k names ->
    dict_lookup k params' = dict_lookup k params.
Proof.
  induction names as [| n names IH]; intros params params' k H Hk.
  - cbn in H. now inversion H.
  - apply validate_completed_step in H. destruct H as (v & t & _ & _ & H).
    rewrite (IH _ _ k H) by (intros Hin; apply Hk; now right).
    apply dict_lookup_set_other. intros ->. apply Hk. now left.
Qed.

Lemma validate_visited (float_of_str : string -> option spec_float)
    (names : list string) :
  forall (params params' : dict) (k : string),
    validate float_of_str names params = Ret (Completed params') ->
    In k names ->
    exists t, dict_lookup k params' = Some t /\ is_float_triple t = true.
Proof.
  induction names as [| n names IH]; intros params params' k H Hk; [destruct Hk |].
  apply validate_completed_step in H. destruct H as (v & t & _ & Hc & H).
  destruct (in_dec string_dec k names) as [Hin | Hout]; [now apply (IH _ _ k H) |].
  destruct Hk as [-> | Hin]; [| contradiction].
  exists t. rewrite (validate_untouched _ _ _ _ _ H Hout), dict_lookup_set_same.
  split; [reflexivity | now apply (check_accepted_triple float_of_str v)].
Qed.

Lemma validate_keys (float_of_str : string -> option spec_float)
    (names : list string) :
  forall (params params' : dict),
    validate float_of_str names params = Ret (Completed params') ->
    map fst params' = map fst params.
Proof.
  induction names as [| n names IH]; intros params params' H.
  - cbn in H. now inversion H.
  - apply validate_completed_step in H. destruct H as (v & t & Hv & _ & H).
    rewrite (IH _ _ H). now apply (dict_set_keys n t v).
Qed.

Lemma check_float_triple (float_of_str : string -> option spec_float) (t : PyVal) :
  is_float_triple t = true -> check float_of_str t = Accepted t.
Proof.
  destruct t as [ | | | | | l | ]; try discriminate.
  destruct l as [| [] [| [] [| [] [| ? ?]]]]; try discriminate. reflexivity.
Qed.

(** X8. When the validation loop of [create_actor] runs to completion on a
    params mapping, whatever its entries and whatever names it visits, the
    mapping keeps its keys in their order, every entry whose key is not
    visited keeps its value, and every visited entry holds a list of three
    floats. *)
Theorem validate_completed_shape :
  forall (float_of_str : string -> option spec_float) (names : list string)
         (params params' : dict),
    validate float_of_str names params = Ret (Completed params') ->
    map fst params' = map fst params
    /\ (forall k, ~ In k names -> dict_lookup k params' = dict_lookup k params)
    /\ (forall k, In k names ->
                  exists t, dict_lookup k params' = Some t
                            /\ is_float_triple t = true).
Proof.
  intros float_of_str names params params' H. split; [| split].
  - exact (validate_keys _ _ _ _ H).
  - intros k. exact (validate_untouched _ _ _ _ k H).
  - intros k. exact (validate_visited _ _ _ _ k H).
Qed.

Lemma validate_completed_shape_witness :
  dict_lookup "name"
    [("name", PyStr "Box1"); ("scale", PyList [PyFloat f1; PyFloat f1; PyFloat f0])]
  = Some (PyStr "Box1").
Proof.
  exact (proj1 (proj2 (validate_completed_shape float_of_digits ["scale"]
                         [("name", PyStr "Box1");
                          ("scale", PyList [PyInt 1; PyStr "1"; PyBool false])]
                         _ eq_refl))
           "name" (fun H => match H with
                            | or_introl E => ltac:(discriminate E)
                            | or_intror F => F
                            end)).
Defined.

(** X9. The validation loop accepts its own output unchanged: run again on
    the params it completed with, it completes with the same params. *)
Theorem validate_idempotent :
  forall (float_of_str : string -> option spec_float) (names : list string)
         (params params' : dict),
    validate float_of_str names params = Ret (Completed params') ->
    validate float_of_str names params' = Ret (Completed params').
Proof.
  intros float_of_str names. induction names as [| n names IH]; intros params params' H.
  - reflexivity.
  - destruct (validate_visited _ _ _ _ n H (or_introl eq_refl)) as (t' & Hl & Ht).
    apply validate_completed_step in H. destruct H as (v & t & _ & _ & H).
    rewrite validate_cons, Hl, (check_float_triple _ _ Ht), (dict_set_same _ _ _ Hl).
    exact (IH _ _ H).
Qed.

Lemma validate_idempotent_witness :
  validate float_of_digits geometry_names
    [("location", PyList [PyFloat f1; PyFloat (float_of_Z 2); PyFloat f0]);
     ("rotation", default_zeros); ("scale", default_ones)]
  = Ret (Completed
           [("location", PyList [PyFloat f1; PyFloat (float_of_Z 2); PyFloat f0]);
            ("rotation", default_zeros); ("scale", default_ones)]).
Proof.
  exact (validate_idempotent float_of_digits geometry_names
           [("location", PyList [PyInt 1; PyStr "2"; PyBool false]);
            ("rotation", default_zeros); ("scale", default_ones)]
           _ eq_refl).
Defined.

(** X10. When the validation loop ends by its [return], the value returned
    is [{"success": False, "message": "Invalid <field> format. Must be a
    list of 3 float values."}] for one of the names it was given. *)
Theorem validate_returned_names_field :
  forall (float_of_str : string -> option spec_float) (names : list string)
         (params : dict) (v : PyVal),
    validate float_of_str names params = Ret (Returned v) ->
    exists field, In field names /\ v = failure (invalid_format field).
Proof.
  intros float_of_str names. induction names as [| n names IH]; intros params v H.
  - discriminate H.
  - rewrite validate_cons in H.
    destruct (dict_lookup n params) as [x |]; [| discriminate].
    destruct (check float_of_str x) as [ | e | t]; try discriminate.
    + inversion H. exists n. split; [now left | reflexivity].
    + destruct (IH _ _ H) as (field & Hin & ->).
      exists field. split; [now right | reflexivity].
Qed.

Lemma validate_returned_names_field_witness :
  exists field,
    In field geometry_names
    /\ failure "Invalid rotation format. Must be a list of 3 float values."
       = failure (invalid_format field).
Proof.
  exact (validate_returned_names_field float_of_digits geometry_names
           [("location", default_zeros); ("rotation", PyStr "0,0,0");
            ("scale", default_ones)]
           _ eq_refl).
Defined.

Lemma py_float_of_float_triple (float_of_str : string -> option spec_float)
    (t : PyVal) (a b c x : PyVal) (e : PyExc) :
  is_float_triple t = true -> t = PyList [a; b; c] -> In x [a; b; c] ->
  py_float float_of_str x <> Raise e.
Proof.
  intros Ht -> Hin.
  destruct a; try discriminate Ht. destruct b; try discriminate Ht.
  destruct c; try discriminate Ht.
  destruct Hin as [<- | [<- | [<- | []]]]; discriminate.
Qed.

(** X11. When the loop raises, it does so at a visited name: either the
    name is missing from the mapping it was given (a [KeyError] carrying
    the name), or the entry of that name in the mapping it was given is a
    list of three elements and the exception is the one [float] raises on
    one of them. *)
Theorem validate_raises_cases :
  forall (float_of_str : string -> option spec_float) (names : list string)
         (params : dict) (e : PyExc),
    validate float_of_str names params = Raise e ->
    (exists k, In k names /\ dict_lookup k params = None
               /\ e = mkExc KeyError (py_quote k))
    \/ (exists k a b c x,
          In k names /\ dict_lookup k params = Some (PyList [a; b; c])
          /\ In x [a; b; c] /\ py_float float_of_str x = Raise e).
Proof.
  intros float_of_str names. induction names as [| n names IH]; intros params e H.
  - discriminate H.
  - rewrite validate_cons in H.
    destruct (dict_lookup n params) as [v |] eqn:Hn.
    2:{ inversion H. left. exists n. now repeat split; [left | ..]. }
    destruct (check float_of_str v) as [ | e' | t] eqn:Hc; try discriminate.
    + inversion H. subst e'. right.
      destruct v as [ | | | | | l | ]; try discriminate Hc.
      destruct l as [| a [| b [| c [| ? ?]]]]; try discriminate Hc.
      cbn in Hc. exists n, a, b, c.
      destruct (py_float float_of_str a) as [fa | ea] eqn:Ha.
      2:{ inversion Hc. subst. exists a. repeat split; auto; now left. }
      destruct (py_float float_of_str b) as [fb | eb] eqn:Hb.
      2:{ inversion Hc. subst. exists b. repeat split; auto; [now left | right; now left]. }
      destruct (py_float float_of_str c) as [fc | ec] eqn:Hcc; [discriminate Hc |].
      inversion Hc. subst. exists c.
      repeat split; auto; [now left | right; right; now left].
    + pose proof (check_accepted_triple _ _ _ Hc) as Ht.
      destruct (IH _ _ H) as [(k & Hin & Hk & ->) | (k & a & b & c & x & Hin & Hk & Hx & He)].
      * destruct (string_dec k n) as [-> | Hne].
        -- rewrite dict_lookup_set_same in Hk. discriminate Hk.
        -- rewrite (dict_lookup_set_other _ _ _ _ Hne) in Hk.
           left. exists k. repeat split; auto. now right.
      * destruct (string_dec k n) as [-> | Hne].
        -- rewrite dict_lookup_set_same in Hk. inversion Hk.
           now destruct (py_float_of_float_triple float_of_str t a b c x e).
        -- rewrite (dict_lookup_set_other _ _ _ _ Hne) in Hk.
           right. exists k, a, b, c, x. repeat split; auto. now right.
Qed.

Lemma validate_raises_cases_witness :
  (exists k, In k geometry_names
             /\ dict_lookup k [("location", default_zeros); ("rotation", default_zeros)]
                = None
             /\ mkExc KeyError (py_quote "scale") = mkExc KeyError (py_quote k))
  \/ (exists k a b c x,
        In k geometry_names
        /\ dict_lookup k [("location", default_zeros); ("rotation", default_zeros)]
           = Some (PyList [a; b; c])
        /\ In x [a; b; c]
        /\ py_float float_of_digits x = Raise (mkExc KeyError (py_quote "scale"))).
Proof.
  exact (validate_raises_cases float_of_digits geometry_names
           [("location", default_zeros); ("rotation", default_zeros)]
           _ eq_refl).
Defined.

(** ** Arguments that give the same run *)

(** X12. Replacing a geometry argument of [create_actor] by the triple of
    floats the validation makes of it changes nothing in the run; in
    particular, three lists of three floats are forwarded exactly as they
    were supplied. *)
Theorem create_actor_coercion_normalises :
  forall (float_of_str : string -> option spec_float)
         (get_unreal_connection : Outcome (option UnrealConnection))
         (name type location rotation scale : PyVal),
    (forall l, check float_of_str (py_or location default_zeros) = Accepted l ->
               create_actor float_of_str get_unreal_connection
                 name type location rotation scale
               = create_actor float_of_str get_unreal_connection
                   name type l rotation scale)
    /\ (forall r, check float_of_str (py_or rotation default_zeros) = Accepted r ->
                  create_actor float_of_str get_unreal_connection
                    name type location rotation scale
                  = create_actor float_of_str get_unreal_connection
                      name type location r scale)
    /\ (forall s, check float_of_str (py_or scale default_ones) = Accepted s ->
                  create_actor float_of_str get_unreal_connection
                    name type location rotation scale
                  = create_actor float_of_str get_unreal_connection
                      name type location rotation s)
    /\ (forall (conn : UnrealConnection) (type_name : string)
               (lx ly lz rx ry rz sx sy sz : spec_float),
          calls (create_actor float_of_str (Ret (Some conn)) name (PyStr type_name)
                   (PyList [PyFloat lx; PyFloat ly; PyFloat lz])
                   (PyList [PyFloat rx; PyFloat ry; PyFloat rz])
                   (PyList [PyFloat sx; PyFloat sy; PyFloat sz]))
          = [("create_actor",
              PyDict [("name", name);
                      ("type", PyStr (str_upper type_name));
                      ("location", PyList [PyFloat lx; PyFloat ly; PyFloat lz]);
                      ("rotation", PyList [PyFloat rx; PyFloat ry; PyFloat rz]);
                      ("scale", PyList [PyFloat sx; PyFloat sy; PyFloat sz])])]).
Proof.
  intros float_of_str guc name type location rotation scale.
  assert (Hfix : forall v t d, check float_of_str v = Accepted t ->
                               check float_of_str (py_or t d) = Accepted t).
  { intros v t d H. pose proof (check_accepted_triple _ _ _ H) as Ht.
    rewrite py_or_truthy; [now apply check_float_triple |].
    apply check_accepted in H. destruct H as (? & ? & ? & ? & ? & ? & _ & _ & _ & _ & ->).
    reflexivity. }
  split; [| split; [| split]].
  - intros l H. rewrite !create_actor_cases, (Hfix _ _ _ H), H. reflexivity.
  - intros r H. rewrite !create_actor_cases, (Hfix _ _ _ H), H. reflexivity.
  - intros s H. rewrite !create_actor_cases, (Hfix _ _ _ H), H. reflexivity.
  - intros conn type_name lx ly lz rx ry rz sx sy sz.
    rewrite create_actor_cases. reflexivity.
Qed.

Lemma create_actor_coercion_normalises_witness :
  create_actor float_of_digits (Ret (Some (fixed_reply (PyDict []))))
    (PyStr "Box1") (PyStr "cube") (PyList [PyInt 1; PyStr "2"; PyBool true])
    PyNone PyNone
  = create_actor float_of_digits (Ret (Some (fixed_reply (PyDict []))))
      (PyStr "Box1") (PyStr "cube")
      (PyList [PyFloat f1; PyFloat (float_of_Z 2); PyFloat f1])
      PyNone PyNone.
Proof.
  exact (proj1 (create_actor_coercion_normalises float_of_digits
                  (Ret (Some (fixed_reply (PyDict []))))
                  (PyStr "Box1") (PyStr "cube")
                  (PyList [PyInt 1; PyStr "2"; PyBool true]) PyNone PyNone)
           _ eq_refl).
Defined.

Lemma ascii_upper_idempotent (c : ascii) :
  ascii_upper (ascii_upper c) = ascii_upper c.
Proof.
  destruct c as [[] [] [] [] [] [] [] []]; reflexivity.
Qed.

Lemma ascii_upper_ascii (c : ascii) :
  (N_of_ascii c <? 128)%N = true -> (N_of_ascii (ascii_upper c) <? 128)%N = true.
Proof.
  destruct c as [[] [] [] [] [] [] [] []]; intros H; try discriminate H; reflexivity.
Qed.

Lemma str_upper_ascii (s : string) : is_ascii s = true -> is_ascii (str_upper s) = true.
Proof.
  induction s as [| c s IH]; cbn [is_ascii str_upper]; [reflexivity |].
  intros H. apply andb_true_iff in H. destruct H as [Hc Hs].
  apply andb_true_iff. split; [now apply ascii_upper_ascii | now apply IH].
Qed.

Lemma str_upper_idempotent (s : string) : str_upper (str_upper s) = str_upper s.
Proof.
  induction s as [| c s IH]; cbn; [reflexivity |].
  now rewrite ascii_upper_idempotent, IH.
Qed.

(** X13. On type strings made of ASCII characters, [create_actor] does
    not tell the case of the letters apart: two such strings with the same
    upper-case form give the same run, and so does such a string and its
    upper-case form. *)
Theorem create_actor_type_case_insensitive :
  forall (float_of_str : string -> option spec_float)
         (get_unreal_connection : Outcome (option UnrealConnection))
         (name location rotation scale : PyVal) (type1 type2 : string),
    is_ascii type1 = true ->
    is_ascii type2 = true ->
    str_upper type1 = str_upper type2 ->
    create_actor float_of_str get_unreal_connection
      name (PyStr type1) location rotation scale
    = create_actor float_of_str get_unreal_connection
        name (PyStr type2) location rotation scale
    /\ create_actor float_of_str get_unreal_connection
         name (PyStr type1) location rotation scale
       = create_actor float_of_str get_unreal_connection
           name (PyStr (str_upper type1)) location rotation scale
    /\ is_ascii (str_upper type1) = true.
Proof.
  intros float_of_str guc name location rotation scale type1 type2 A1 _ H.
  unfold create_actor. cbn [py_upper].
  rewrite str_upper_idempotent, H. split; [reflexivity | split; [reflexivity |]].
  rewrite <- H. now apply str_upper_ascii.
Qed.

Lemma create_actor_type_case_insensitive_witness :
  create_actor float_of_digits (Ret (Some (fixed_reply (PyDict []))))
    (PyStr "Box1") (PyStr "cube") PyNone PyNone PyNone
  = create_actor float_of_digits (Ret (Some (fixed_reply (PyDict []))))
      (PyStr "Box1") (PyStr "CuBe") PyNone PyNone PyNone.
Proof.
  exact (proj1 (create_actor_type_case_insensitive float_of_digits
                  (Ret (Some (fixed_reply (PyDict []))))
                  (PyStr "Box1") PyNone PyNone PyNone "cube" "CuBe"
                  eq_refl eq_refl eq_refl)).
Defined.

(** X14. When [type] is not a string, [create_actor] never invokes
    [send_command] and returns [{"success": False, "message": msg}] with
    [msg] beginning ["Error creating actor"], whatever the geometry
    arguments are: the upper-casing fails before the validation loop
    starts, so no ["Invalid <field> format"] message is produced. *)
Theorem create_actor_type_not_string :
  forall (float_of_str : string -> option spec_float)
         (get_unreal_connection : Outcome (option UnrealConnection))
         (name type location rotation scale : PyVal),
    (forall s, type <> PyStr s) ->
    calls (create_actor float_of_str get_unreal_connection
             name type location rotation scale) = []
    /\ exists msg,
        outcome (create_actor float_of_str get_unreal_connection
                   name type location rotation scale) = Ret (failure msg)
        /\ String.prefix "Error creating actor" msg = true
        /\ forall field, msg <> invalid_format field.
Proof.
  intros float_of_str guc name type location rotation scale Hty.
  rewrite create_actor_cases.
  assert (Hnot : forall e field, error_creating_actor e <> invalid_format field).
  { intros e field H. discriminate H. }
  destruct guc as [unity | e].
  2:{ split; [reflexivity |]. eexists. repeat split; apply Hnot. }
  destruct type; try (split; [reflexivity |]; eexists; repeat split; apply Hnot).
  now destruct (Hty s).
Qed.

Lemma create_actor_type_not_string_witness :
  calls (create_actor float_of_digits (Ret (Some (fixed_reply (PyDict []))))
           (PyStr "Box1") PyNone (PyList [PyInt 1; PyInt 2]) PyNone PyNone) = [].
Proof.
  exact (proj1 (create_actor_type_not_string float_of_digits
                  (Ret (Some (fixed_reply (PyDict []))))
                  (PyStr "Box1") PyNone (PyList [PyInt 1; PyInt 2]) PyNone PyNone
                  (fun s H => ltac:(discriminate H)))).
Defined.

(** ** More on what is returned *)

Lemma passthrough_result (get_unreal_connection : Outcome (option UnrealConnection))
    (command : string) (params : PyVal) :
  exists v,
    outcome (try_except
               (unity <- pure get_unreal_connection ;;
                response <- call_send_command unity command params ;;
                ret (py_or response (PyDict [])))
               (fun _ => ret (PyDict []))) = Ret v
    /\ (v = PyDict [] \/ truthy v = true).
Proof.
  destruct get_unreal_connection as [[conn |] | e];
    try (exists (PyDict []); split; [reflexivity | now left]).
  run_unfold. destruct (send_command conn command params) as [r | e]; cbn.
  - unfold py_or. destruct (truthy r) eqn:Ht; eexists; split; try reflexivity; auto.
  - eexists; split; [reflexivity | now left].
Qed.

(** X15. The value [delete_actor], [set_actor_transform] and
    [get_actor_properties] return is the empty mapping or a reply that
    Python counts as true; it is never [None], [False], zero or another
    empty container. *)
Theorem passthrough_operations_result :
  forall (get_unreal_connection : Outcome (option UnrealConnection))
         (name location rotation scale : PyVal),
    (exists v, outcome (delete_actor get_unreal_connection name) = Ret v
               /\ (v = PyDict [] \/ truthy v = true))
    /\ (exists v, outcome (set_actor_transform get_unreal_connection
                             name location rotation scale) = Ret v
                  /\ (v = PyDict [] \/ truthy v = true))
    /\ (exists v, outcome (get_actor_properties get_unreal_connection name) = Ret v
                  /\ (v = PyDict [] \/ truthy v = true)).
Proof.
  intros guc name location rotation scale.
  split; [| split]; apply passthrough_result.
Qed.

(** X16. On a reply that is a non-empty mapping, the result of
    [get_actors_in_level] depends on the entries ["result"] and ["content"]
    alone: two such replies that agree on these two keys give the same
    result. *)
Theorem get_actors_in_level_reads_two_keys :
  forall (conn1 conn2 : UnrealConnection) (d1 d2 : dict),
    send_command conn1 "get_actors_in_level" (PyDict []) = Ret (PyDict d1) ->
    send_command conn2 "get_actors_in_level" (PyDict []) = Ret (PyDict d2) ->
    d1 <> [] -> d2 <> [] ->
    dict_lookup "result" d1 = dict_lookup "result" d2 ->
    dict_lookup "content" d1 = dict_lookup "content" d2 ->
    outcome (get_actors_in_level (Ret (Some conn1)))
    = outcome (get_actors_in_level (Ret (Some conn2))).
Proof.
  intros conn1 conn2 d1 d2 H1 H2 N1 N2 Hres Hcont.
  run_unfold. rewrite H1, H2.
  destruct d1 as [| kv1 d1]; [contradiction |].
  destruct d2 as [| kv2 d2]; [contradiction |].
  cbn [truthy negb py_contains py_getitem]. rewrite Hres, Hcont.
  reflexivity.
Qed.

Lemma get_actors_in_level_reads_two_keys_witness :
  outcome (get_actors_in_level
             (Ret (Some (fixed_reply
                           (PyDict [("status", PyStr "success");
                                    ("content", PyList [PyStr "A"])])))))
  = outcome (get_actors_in_level
               (Ret (Some (fixed_reply (PyDict [("content", PyList [PyStr "A"])]))))).
Proof.
  apply (get_actors_in_level_reads_two_keys
           (fixed_reply (PyDict [("status", PyStr "success");
                                 ("content", PyList [PyStr "A"])]))
           (fixed_reply (PyDict [("content", PyList [PyStr "A"])]))
           [("status", PyStr "success"); ("content", PyList [PyStr "A"])]
           [("content", PyList [PyStr "A"])]);
    try reflexivity; discriminate.
Defined.
